(** * computeSales.py: a shallow embedding and its specification

    The program reads a product catalogue and a list of sale records (two
    JSON documents), builds a title -> price dictionary, validates every
    sale record, accumulates price * quantity over the valid ones and writes
    a report.  This file embeds [build_price_catalogue],
    [validate_sale_item], [compute_sales], [format_currency],
    [save_results], [display_results] and the part of [main] that follows
    the loading of the two documents, over a model of the Python values and
    operators those functions use: dictionaries with string keys as [gmap],
    integers as [Z], floats as binary64 values of [SpecFloat], exceptions
    as an error monad.

    Sale records and products are JSON objects, as the annotations
    [List[Dict]] say; the values of their fields are arbitrary JSON values.
    The clock, the file system and the console are outside the model: the
    elapsed time is an input of [main], [save_results] is the sequence of
    its writes and [display_results] the sequence of its prints. *)

From Stdlib Require Import ZArith Lia Ascii Floats.SpecFloat.
From stdpp Require Import base option list strings gmap pretty.

Set Warnings "-register-all".
Local Open Scope Z_scope.

(** ** The Python values the program manipulates *)

Module Py.

(** What [json.load] produces.  Objects have string keys; numbers are
    arbitrary-precision integers or IEEE binary64 floats ([json.load] also
    accepts the literals NaN, Infinity and -Infinity). *)
Inductive json :=
| JNull
| JBool (b : bool)
| JInt (z : Z)
| JFloat (f : spec_float)
| JStr (s : string)
| JList (l : list json)
| JDict (d : gmap string json).

(** Exceptions, with the interpreter's message (a [KeyError] has the key). *)
Inductive exn :=
| TypeError (msg : string)
| ValueError (msg : string)
| KeyError (key : json)
| OverflowError (msg : string).

(** A computation either returns or raises. *)
Inductive result (A : Type) :=
| Ok (a : A)
| Raise (e : exn).
Arguments Ok {A} a.
Arguments Raise {A} e.

#[global] Instance result_ret : MRet result := λ A a, Ok a.
#[global] Instance result_bind : MBind result := λ A B k m,
  match m with
  | Ok a => k a
  | Raise e => Raise e
  end.

Definition returns {A} (m : result A) : bool :=
  match m with Ok _ => true | Raise _ => false end.

(** *** binary64 arithmetic *)

Definition prec : Z := 53.
Definition emax : Z := 1024.

Definition fmul : spec_float → spec_float → spec_float := SFmul prec emax.
Definition fadd : spec_float → spec_float → spec_float := SFadd prec emax.
Definition flt : spec_float → spec_float → bool := SFltb.
Definition fzero : spec_float := S754_zero false.

(** [float(z)]: the nearest binary64 (ties to even). *)
Definition float_of_Z (z : Z) : spec_float := binary_normalize prec emax z 0 false.

(** Python numbers; [bool] is a subclass of [int]. *)
Inductive number :=
| NInt (z : Z)
| NFloat (f : spec_float).

Definition as_number (v : json) : option number :=
  match v with
  | JBool b => Some (NInt (Z.b2z b))
  | JInt z => Some (NInt z)
  | JFloat f => Some (NFloat f)
  | _ => None
  end.

(** [isinstance(v, (int, float))] *)
Definition isinstance_int_float (v : json) : bool :=
  match v with
  | JBool _ | JInt _ | JFloat _ => true
  | _ => false
  end.

(** Converting an operand to float raises when the integer rounds to
    infinity. *)
Definition fits_float (z : Z) : bool :=
  match float_of_Z z with
  | S754_infinity _ => false
  | _ => true
  end.

Definition to_float (n : number) : result spec_float :=
  match n with
  | NFloat f => Ok f
  | NInt z =>
      if fits_float z then Ok (float_of_Z z)
      else Raise (OverflowError "int too large to convert to float")
  end.

Definition type_name (v : json) : string :=
  match v with
  | JNull => "NoneType"
  | JBool _ => "bool"
  | JInt _ => "int"
  | JFloat _ => "float"
  | JStr _ => "str"
  | JList _ => "list"
  | JDict _ => "dict"
  end.

(** [str(type(v))] *)
Definition type_repr (v : json) : string :=
  "<class '" +:+ type_name v +:+ "'>".

Fixpoint str_repeat (s : string) (n : nat) : string :=
  match n with
  | O => EmptyString
  | S n' => s +:+ str_repeat s n'
  end.

(** [seq * n] for a string or a list (a count below one gives the empty
    sequence). *)
Definition seq_repeat (v : json) (n : Z) : option json :=
  match v with
  | JStr s => Some (JStr (str_repeat s (Z.to_nat n)))
  | JList l => Some (JList (mjoin (replicate (Z.to_nat n) l)))
  | _ => None
  end.

Definition num_mul (a b : number) : result json :=
  match a, b with
  | NInt x, NInt y => Ok (JInt (x * y))
  | _, _ => fa ← to_float a; fb ← to_float b; Ok (JFloat (fmul fa fb))
  end.

Definition bad_operands (op : string) (a b : json) : exn :=
  TypeError ("unsupported operand type(s) for " +:+ op +:+ ": '"
             +:+ type_name a +:+ "' and '" +:+ type_name b +:+ "'").

Definition non_int_repeat (v : json) : exn :=
  TypeError ("can't multiply sequence by non-int of type '"
             +:+ type_name v +:+ "'").

(** [a * b] *)
Definition py_mul (a b : json) : result json :=
  match as_number a, as_number b with
  | Some x, Some y => num_mul x y
  | None, Some (NInt n) =>
      match seq_repeat a n with
      | Some v => Ok v
      | None => Raise (bad_operands "*" a b)
      end
  | Some (NInt n), None =>
      match seq_repeat b n with
      | Some v => Ok v
      | None => Raise (bad_operands "*" a b)
      end
  | None, Some (NFloat _) =>
      match seq_repeat a 0 with
      | Some _ => Raise (non_int_repeat b)
      | None => Raise (bad_operands "*" a b)
      end
  | Some (NFloat _), None =>
      match seq_repeat b 0 with
      | Some _ => Raise (non_int_repeat a)
      | None => Raise (bad_operands "*" a b)
      end
  | None, None =>
      match seq_repeat a 0, seq_repeat b 0 with
      | Some _, Some _ => Raise (non_int_repeat b)
      | _, _ => Raise (bad_operands "*" a b)
      end
  end.

(** [t += v] for a float [t]: the result is a float or an exception. *)
Definition float_add (t : spec_float) (v : json) : result spec_float :=
  match as_number v with
  | Some n => f ← to_float n; Ok (fadd t f)
  | None => Raise (bad_operands "+=" (JFloat t) v)
  end.

(** [v < 0] *)
Definition lt_zero (v : json) : result bool :=
  match v with
  | JBool _ => Ok false
  | JInt z => Ok (z <? 0)
  | JFloat f => Ok (flt f fzero)
  | _ => Raise (TypeError ("'<' not supported between instances of '"
                           +:+ type_name v +:+ "' and 'int'"))
  end.

(** *** Dictionary keys

    A dict compares keys with [==]: [1], [1.0] and [True] are one key.  A
    NaN equals no key but itself as an object, and every NaN that
    [json.load] returns is a fresh object; lists and dicts are unhashable. *)
Inductive pykey :=
| KNone
| KInt (z : Z)
| KFloat (f : spec_float)
| KStr (s : string).

(** The integer a float is equal to, when there is one. *)
Definition float_int_value (f : spec_float) : option Z :=
  match f with
  | S754_zero _ => Some 0
  | S754_finite s m e =>
      if 0 <=? e then Some (cond_Zopp s (Z.pos m * 2 ^ e))
      else if Z.pos m mod 2 ^ (- e) =? 0
           then Some (cond_Zopp s (Z.pos m / 2 ^ (- e)))
           else None
  | _ => None
  end.

Definition unhashable (v : json) : exn :=
  TypeError ("unhashable type: '" +:+ type_name v +:+ "'").

(** [Ok None] is a key equal to no other (a NaN). *)
Definition to_key (v : json) : result (option pykey) :=
  match v with
  | JNull => Ok (Some KNone)
  | JBool b => Ok (Some (KInt (Z.b2z b)))
  | JInt z => Ok (Some (KInt z))
  | JFloat S754_nan => Ok None
  | JFloat f =>
      Ok (Some (match float_int_value f with
                | Some z => KInt z
                | None => KFloat f
                end))
  | JStr s => Ok (Some (KStr s))
  | JList _ | JDict _ => Raise (unhashable v)
  end.

#[global] Instance spec_float_eq_dec : EqDecision spec_float.
Proof. solve_decision. Defined.

#[global] Instance spec_float_countable : Countable spec_float.
Proof.
  refine (inj_countable'
    (λ f, match f with
          | S754_zero s => inl (inl s)
          | S754_infinity s => inl (inr s)
          | S754_nan => inr (inl ())
          | S754_finite s m e => inr (inr (s, m, e))
          end)
    (λ x, match x with
          | inl (inl s) => S754_zero s
          | inl (inr s) => S754_infinity s
          | inr (inl _) => S754_nan
          | inr (inr (s, m, e)) => S754_finite s m e
          end) _).
  by intros [].
Defined.

#[global] Instance pykey_eq_dec : EqDecision pykey.
Proof. solve_decision. Defined.

#[global] Instance pykey_countable : Countable pykey.
Proof.
  refine (inj_countable'
    (λ k, match k with
          | KNone => inl (inl ())
          | KInt z => inl (inr z)
          | KFloat f => inr (inl f)
          | KStr s => inr (inr s)
          end)
    (λ x, match x with
          | inl (inl _) => KNone
          | inl (inr z) => KInt z
          | inr (inl f) => KFloat f
          | inr (inr s) => KStr s
          end) _).
  by intros [].
Defined.

(** *** Dictionaries *)

(** [k in d] for a dict with string keys *)
Definition has_key (d : gmap string json) (k : string) : bool :=
  match d !! k with
  | Some _ => true
  | None => false
  end.

(** [d[k]] for a dict with string keys *)
Definition getitem (d : gmap string json) (k : string) : result json :=
  match d !! k with
  | Some v => Ok v
  | None => Raise (KeyError (JStr k))
  end.

(** [k in d], [d[k]] and [d[k] = v] for a dict keyed by arbitrary values
    (an entry stored under a NaN is one that no lookup reaches) *)
Definition contains (d : gmap pykey json) (k : json) : result bool :=
  key ← to_key k;
  Ok (match key ≫= (d !!.) with Some _ => true | None => false end).

Definition lookup_item (d : gmap pykey json) (k : json) : result json :=
  key ← to_key k;
  match key ≫= (d !!.) with
  | Some v => Ok v
  | None => Raise (KeyError k)
  end.

Definition setitem (d : gmap pykey json) (k v : json) : result (gmap pykey json) :=
  key ← to_key k;
  Ok (match key with
      | Some key => <[key := v]> d
      | None => d
      end).

End Py.
Export Py.

(** ** The program *)

Section Program.

(** Python's conversion of a float (or a container) to text, [str(v)], and
    its float formatting, [format(x, spec)], which the program reaches
    through f-strings.  They belong to the interpreter, not to the program. *)
Variable builtin_str : json → string.
Variable builtin_format : string → spec_float → string.

Definition nl : string := String "010"%char EmptyString.

(** [str(v)], as an f-string field renders it. *)
Definition py_str (v : json) : string :=
  match v with
  | JNull => "None"
  | JBool true => "True"
  | JBool false => "False"
  | JInt z => pretty z
  | JStr s => s
  | _ => builtin_str v
  end.

(** *** build_price_catalogue *)

Definition catalogue_body (catalogue : gmap pykey json) (product : gmap string json)
  : result (gmap pykey json) :=
  if has_key product "title" && has_key product "price" then
    price ← getitem product "price";
    title ← getitem product "title";
    setitem catalogue title price
  else Ok catalogue.

Fixpoint catalogue_loop (catalogue : gmap pykey json) (products : list (gmap string json))
  : result (gmap pykey json) :=
  match products with
  | [] => Ok catalogue
  | product :: rest =>
      catalogue' ← catalogue_body catalogue product;
      catalogue_loop catalogue' rest
  end.

Definition build_price_catalogue (products : list (gmap string json))
  : result (gmap pykey json) :=
  catalogue_loop ∅ products.

(** *** validate_sale_item *)

Definition required_fields : list string :=
  ["SALE_ID"; "SALE_Date"; "Product"; "Quantity"].

(** The [for field in required_fields] loop: the first field that is not
    in the sale, if any. *)
Fixpoint missing_field (fields : list string) (sale : gmap string json) : option string :=
  match fields with
  | [] => None
  | field :: rest =>
      if negb (has_key sale field) then Some field
      else missing_field rest sale
  end.

(** The body of the [try] block, with the [return True] that follows it. *)
Definition check_quantity (sale : gmap string json) : result (bool * string) :=
  quantity ← getitem sale "Quantity";
  if negb (isinstance_int_float quantity) then
    Ok (false, "Quantity must be a number, got " +:+ type_repr quantity)
  else
    negative ← lt_zero quantity;
    if (negative : bool) then
      Ok (false, "Quantity cannot be negative (got " +:+ py_str quantity +:+ ")")
    else Ok (true, EmptyString).

Definition validate_sale_item (sale : gmap string json) (line_num : nat)
  : result (bool * string) :=
  match missing_field required_fields sale with
  | Some field => Ok (false, "Missing required field '" +:+ field +:+ "'")
  | None =>
      match check_quantity sale with
      | Ok r => Ok r
      | Raise e =>
          match e with
          | ValueError msg | TypeError msg =>
              Ok (false, "Invalid quantity value: " +:+ msg)
          | _ => Raise e
          end
      end
  end.

(** *** compute_sales *)

(** The loop's variables, and what it has printed. *)
Record tally := Tally {
  total_cost : spec_float;
  errors : list string;
  printed : list string
}.

(** [errors.append(error); print(f"WARNING: {error}"); continue] *)
Definition reject (st : tally) (error : string) : tally :=
  {| total_cost := total_cost st;
     errors := errors st ++ [error];
     printed := printed st ++ ["WARNING: " +:+ error] |}.

(** [f"Sale #{idx}: {reason}"] *)
Definition sale_error (idx : nat) (reason : string) : string :=
  "Sale #" +:+ pretty idx +:+ ": " +:+ reason.

(** One iteration of the loop over [enumerate(sales_records, 1)]. *)
Definition sale_body (price_catalogue : gmap pykey json) (st : tally)
    (idx : nat) (sale : gmap string json) : result tally :=
  v ← validate_sale_item sale idx;
  let '(is_valid, error_msg) := v in
  if negb is_valid then Ok (reject st (sale_error idx error_msg))
  else
    product_name ← getitem sale "Product";
    quantity ← getitem sale "Quantity";
    found ← contains price_catalogue product_name;
    if negb found then
      Ok (reject st (sale_error idx ("Product '" +:+ py_str product_name
                                     +:+ "' not found in catalogue")))
    else
      price ← lookup_item price_catalogue product_name;
      sale_cost ← py_mul price quantity;
      total ← float_add (total_cost st) sale_cost;
      Ok {| total_cost := total; errors := errors st; printed := printed st |}.

Fixpoint sales_loop (price_catalogue : gmap pykey json) (st : tally) (idx : nat)
    (sales_records : list (gmap string json)) : result tally :=
  match sales_records with
  | [] => Ok st
  | sale :: rest =>
      st' ← sale_body price_catalogue st idx sale;
      sales_loop price_catalogue st' (S idx) rest
  end.

Definition start : tally := {| total_cost := fzero; errors := []; printed := [] |}.

Definition compute_sales (price_catalogue : gmap pykey json)
    (sales_records : list (gmap string json)) : result (spec_float * list string) :=
  st ← sales_loop price_catalogue start 1 sales_records;
  Ok (total_cost st, errors st).

(** *** The report *)

Definition format_currency (amount : spec_float) : string :=
  "$" +:+ builtin_format ",.2f" amount.

Definition rule : string := str_repeat "=" 70.

(** The successive [f.write] arguments; the file holds their concatenation
    ([output_file] only names the file). *)
Definition save_results (output_file : string) (total_cost : spec_float)
    (elapsed_time : spec_float) (sales_count : nat) (errors : list string)
  : list string :=
  [ rule +:+ nl;
    "SALES COMPUTATION RESULTS" +:+ nl;
    rule +:+ nl +:+ nl;
    "Total Sales Processed: " +:+ pretty sales_count +:+ nl;
    "Total Cost: " +:+ format_currency total_cost +:+ nl;
    "Execution Time: " +:+ builtin_format ".4f" elapsed_time +:+ " seconds" +:+ nl +:+ nl ]
  ++ match errors with
     | [] => [ "No errors encountered during processing." +:+ nl ]
     | _ =>
         [ rule +:+ nl;
           "ERRORS FOUND: " +:+ pretty (length errors) +:+ nl;
           rule +:+ nl ]
         ++ map (λ error, "  - " +:+ error +:+ nl) errors
     end.

Definition file_content (writes : list string) : string :=
  foldr String.append EmptyString writes.

(** The successive [print] arguments. *)
Definition display_results (total_cost : spec_float) (elapsed_time : spec_float)
    (sales_count : nat) (errors : list string) : list string :=
  [ nl +:+ rule;
    "SALES COMPUTATION RESULTS";
    rule;
    nl +:+ "Total Sales Processed: " +:+ pretty sales_count;
    "Total Cost: " +:+ format_currency total_cost;
    "Execution Time: " +:+ builtin_format ".4f" elapsed_time +:+ " seconds";
    match errors with
    | [] => nl +:+ "No errors encountered during processing."
    | _ => nl +:+ "Total Errors Found: " +:+ pretty (length errors)
    end;
    rule ].

(** [main] once both documents are loaded: what it writes to
    SalesResults.txt.  [elapsed_time] is the difference of the two clock
    readings. *)
Definition main (products sales_records : list (gmap string json))
    (elapsed_time : spec_float) : result (list string) :=
  price_catalogue ← build_price_catalogue products;
  r ← compute_sales price_catalogue sales_records;
  let '(total_cost, errors) := r in
  Ok (save_results "SalesResults.txt" total_cost elapsed_time
        (length sales_records) errors).

End Program.

(** ** The checks, in the specification's words *)

(** All four required fields are present. *)
Definition fields_present (sale : gmap string json) : bool :=
  forallb (has_key sale) required_fields.

(** A numeric value below zero. *)
Definition negative (q : json) : bool :=
  match q with
  | JInt z => z <? 0
  | JFloat f => flt f fzero
  | _ => false
  end.

(** Quantity is a number and is not negative. *)
Definition quantity_valid (q : json) : bool :=
  isinstance_int_float q && negb (negative q).

(** The product is a key of the catalogue. *)
Definition in_catalogue (catalogue : gmap pykey json) (p : json) : bool :=
  match to_key p with
  | Ok (Some k) => bool_decide (is_Some (catalogue !! k))
  | _ => false
  end.

(** The record passes every check: it is costed. *)
Definition passes_checks (catalogue : gmap pykey json) (sale : gmap string json) : bool :=
  fields_present sale &&
  match sale !! "Quantity", sale !! "Product" with
  | Some q, Some p => quantity_valid q && in_catalogue catalogue p
  | _, _ => false
  end.

(** [float(catalogue[Product] * Quantity)]: what a costed record adds. *)
Definition line_cost (catalogue : gmap pykey json) (sale : gmap string json)
  : result spec_float :=
  product_name ← getitem sale "Product";
  quantity ← getitem sale "Quantity";
  price ← lookup_item catalogue product_name;
  sale_cost ← py_mul price quantity;
  match as_number sale_cost with
  | Some n => to_float n
  | None => Raise (bad_operands "+=" (JFloat fzero) sale_cost)
  end.

(** The sum of a list of floats, left to right from 0.0. *)
Definition float_sum (costs : list spec_float) : spec_float :=
  foldl fadd fzero costs.

(** Why the loop does not cost a record: the reason it reports, or [None]
    when it costs the record. *)
Definition rejection (builtin_str : json → string) (catalogue : gmap pykey json)
    (sale : gmap string json) : result (option string) :=
  v ← validate_sale_item builtin_str sale 0;
  if negb v.1 then Ok (Some v.2)
  else
    product_name ← getitem sale "Product";
    found ← contains catalogue product_name;
    if (found : bool) then Ok None
    else Ok (Some ("Product '" +:+ py_str builtin_str product_name
                   +:+ "' not found in catalogue")).

(** The error line of the record at position [idx], if it has one. *)
Definition error_line (builtin_str : json → string) (catalogue : gmap pykey json)
    (idx : nat) (sale : gmap string json) : option string :=
  match rejection builtin_str catalogue sale with
  | Ok (Some reason) => Some (sale_error idx reason)
  | _ => None
  end.

(** The error lines of a list of records whose first one is at position
    [idx], in the order of the records. *)
Definition error_lines (builtin_str : json → string) (catalogue : gmap pykey json)
    (idx : nat) (sales_records : list (gmap string json)) : list string :=
  omap id (imap (λ i, error_line builtin_str catalogue (idx + i)%nat) sales_records).

Definition add_cost (st : tally) (c : spec_float) : tally :=
  {| total_cost := fadd (total_cost st) c; errors := errors st; printed := printed st |}.

(** The product has both fields and its title is, as a key, other than [k]
    (or it has no title or no price). *)
Definition other_title (k : pykey) (product : gmap string json) : Prop :=
  ∀ t, product !! "title" = Some t → is_Some (product !! "price") →
       to_key t = Ok (Some k) → False.

(** The multiplication of a price by a quantity and the addition of the
    product to a float do not raise: both are numbers, and the integer
    that is converted to float, if any, is not too large. *)
Definition costable (price quantity : json) : bool :=
  match as_number price, as_number quantity with
  | Some (NInt x), Some (NInt y) => fits_float (x * y)
  | Some (NInt x), Some (NFloat _) => fits_float x
  | Some (NFloat _), Some (NInt y) => fits_float y
  | Some (NFloat _), Some (NFloat _) => true
  | _, _ => false
  end.

(** A record on which the loop body does not raise: it fails validation,
    or its Product is hashable and either is not in the catalogue or has a
    price that can be multiplied and added. *)
Definition record_safe (catalogue : gmap pykey json) (sale : gmap string json) : bool :=
  match sale !! "Quantity", sale !! "Product" with
  | Some q, Some p =>
      if fields_present sale && quantity_valid q then
        match to_key p with
        | Ok key =>
            match key ≫= (catalogue !!.) with
            | Some price => costable price q
            | None => true
            end
        | Raise _ => false
        end
      else true
  | _, _ => true
  end.

(** ** Floats and numbers *)

(** A value of the binary64 format. *)
Definition valid (f : spec_float) : Prop := valid_binary prec emax f = true.

(** Not below zero (a NaN is not). *)
Definition nonneg (f : spec_float) : Prop := flt f fzero = false.

(** A JSON value whose float, if it is one, is a binary64 value. *)
Definition well_formed (v : json) : Prop :=
  match v with
  | JFloat f => valid f
  | _ => True
  end.

(** Zero, of either sign. *)
Definition is_zero (f : spec_float) : bool :=
  match f with
  | S754_zero _ => true
  | _ => false
  end.

(** A Quantity that is exactly zero: the integer 0 or a float zero. *)
Definition zero_quantity (q : json) : bool :=
  match q with
  | JInt 0 => true
  | JFloat f => is_zero f
  | _ => false
  end.

(** A price that is a finite number: a boolean, an integer that converts
    to float, or a float other than an infinity and NaN. *)
Definition finite_price (price : json) : bool :=
  match price with
  | JBool _ => true
  | JInt z => fits_float z
  | JFloat (S754_zero _ | S754_finite _ _ _) => true
  | _ => false
  end.

(** A number that is not negative (and, for a float, of the format). *)
Definition num_nonneg (n : number) : Prop :=
  match n with
  | NInt z => 0 ≤ z
  | NFloat f => valid f ∧ nonneg f
  end.

(** ** What the loop reads, and what it can raise *)

(** Two records that the loop cannot tell apart: the same required fields
    are present, and Quantity and Product have the same values. *)
Definition same_reading (s1 s2 : gmap string json) : Prop :=
  Forall (λ f, has_key s1 f = has_key s2 f) required_fields
  ∧ s1 !! "Quantity" = s2 !! "Quantity"
  ∧ s1 !! "Product" = s2 !! "Product".

(** Two catalogues that give the Product of a record the same price, or
    both none. *)
Definition same_price (c1 c2 : gmap pykey json) (sale : gmap string json) : Prop :=
  ∀ p k, sale !! "Product" = Some p → to_key p = Ok (Some k) → c1 !! k = c2 !! k.

(** A list or an object: a value that cannot be a dictionary key. *)
Definition is_container (v : json) : bool :=
  match v with
  | JList _ | JDict _ => true
  | _ => false
  end.

(** A [TypeError], or the [OverflowError] of an integer that has no float. *)
Definition type_or_overflow (e : exn) : Prop :=
  match e with
  | TypeError _ => True
  | OverflowError msg => msg = "int too large to convert to float"
  | _ => False
  end.

(** No character of the string is a colon. *)
Fixpoint no_colon (s : string) : bool :=
  match s with
  | EmptyString => true
  | String c rest => negb (Ascii.eqb c ":") && no_colon rest
  end.

(** ** Integer costs *)

(** The exact cost of a record whose price and Quantity are integers
    (booleans included): their product. *)
Definition int_cost (catalogue : gmap pykey json) (sale : gmap string json) : option Z :=
  p ← sale !! "Product";
  q ← sale !! "Quantity";
  key ← match to_key p with Ok key => key | Raise _ => None end;
  price ← catalogue !! key;
  match as_number price, as_number q with
  | Some (NInt x), Some (NInt y) => Some (x * y)
  | _, _ => None
  end.

(** The sum, in the integers, of the costs of the costed records. *)
Definition exact_total (catalogue : gmap pykey json)
    (sales_records : list (gmap string json)) : Z :=
  foldr Z.add 0
    (omap (int_cost catalogue) (List.filter (passes_checks catalogue) sales_records)).

(** If the record is costed, its cost is an integer that is not negative. *)
Definition integer_cost (catalogue : gmap pykey json) (sale : gmap string json) : Prop :=
  passes_checks catalogue sale = true → ∃ z, int_cost catalogue sale = Some z ∧ 0 ≤ z.

(** ** The entries of the catalogue document *)

(** The price an entry gives to the key [k]: the entry has both fields and
    its title is, as a key, [k]. *)
Definition price_for (k : pykey) (product : gmap string json) : option json :=
  match product !! "title", product !! "price" with
  | Some t, Some p =>
      match to_key t with
      | Ok (Some k') => if decide (k' = k) then Some p else None
      | _ => None
      end
  | _, _ => None
  end.

(** The entry is skipped, or its title can be a dictionary key. *)
Definition title_hashable (product : gmap string json) : bool :=
  match product !! "title", product !! "price" with
  | Some t, Some _ => negb (is_container t)
  | _, _ => true
  end.

(** The title of the entry, if it has one, is a string. *)
Definition string_title (product : gmap string json) : bool :=
  match product !! "title" with
  | Some (JStr _) | None => true
  | Some _ => false
  end.

(** No two entries with both fields have the same title, as a key. *)
Definition distinct_titles (products : list (gmap string json)) : Prop :=
  ∀ k, (length (omap (price_for k) products) ≤ 1)%nat.

(** ** The console *)

(** What the console shows: [print] ends each of its arguments with a
    newline. *)
Definition console (prints : list string) : string :=
  file_content (map (λ s, s +:+ nl) prints).

(** ** Example data *)

(** The examples render no float and no container. *)
Definition str_unused : json → string := λ _, EmptyString.
Definition format_unused : string → spec_float → string := λ _ _, EmptyString.

Definition sale_of (product quantity : json) : gmap string json :=
  <["SALE_ID" := JInt 1]> (<["SALE_Date" := JStr "2024-01-01"]>
    (<["Product" := product]> (<["Quantity" := quantity]> ∅))).

Definition product_of (title price : json) : gmap string json :=
  <["title" := title]> (<["price" := price]> ∅).

Definition catalogue_A (price : json) : gmap pykey json := <[KStr "A" := price]> ∅.

(** A costed record, a record without Quantity and a record of an unknown
    product. *)
Definition three_sales : list (gmap string json) :=
  [ sale_of (JStr "A") (JInt 3);
    delete "Quantity" (sale_of (JStr "A") (JInt 3));
    sale_of (JStr "Z") (JInt 1) ].

Definition three_errors : list string :=
  [ "Sale #2: Missing required field 'Quantity'";
    "Sale #3: Product 'Z' not found in catalogue" ].

(** 30.0 *)
Definition thirty : spec_float := S754_finite false 8444249301319680 (-48).

Definition two_prices : list (gmap string json) :=
  [ product_of (JStr "A") (JInt 10);
    <["title" := JStr "B"]> ∅;
    product_of (JStr "A") (JInt 20) ].

(** -10.0 *)
Definition minus_ten : spec_float := S754_finite true 5629499534213120 (-49).

(** The first record of [three_sales] with another identifier and a field
    the program does not read. *)
Definition noted_sale : gmap string json :=
  <["note" := JStr "gift"]> (<["SALE_ID" := JInt 99]> (sale_of (JStr "A") (JInt 3))).

(** Two products with different titles. *)
Definition two_titles : list (gmap string json) :=
  [ product_of (JStr "A") (JInt 10); product_of (JStr "B") (JInt 5) ].

(** ** Basic facts *)

Lemma bind_Ok {A B} (m : result A) (k : A → result B) (b : B) :
  m ≫= k = Ok b ↔ ∃ a, m = Ok a ∧ k a = Ok b.
Proof.
  destruct m as [a|e]; simpl; split.
  - intros H. by exists a.
  - by intros (a' & [= ->] & H).
  - discriminate.
  - by intros (a' & [=] & _).
Qed.

Lemma has_key_true (d : gmap string json) (k : string) :
  has_key d k = true ↔ is_Some (d !! k).
Proof.
  unfold has_key. by destruct (d !! k) as [v|]; split.
Qed.

Lemma getitem_Ok (d : gmap string json) (k : string) (v : json) :
  getitem d k = Ok v ↔ d !! k = Some v.
Proof.
  unfold getitem. destruct (d !! k); split; intros H; by simplify_eq.
Qed.

Lemma missing_field_None (fields : list string) (sale : gmap string json) :
  missing_field fields sale = None ↔ forallb (has_key sale) fields = true.
Proof.
  induction fields as [|f fields IH]; simpl; [done|].
  destruct (has_key sale f); simpl; [exact IH|]. split; discriminate.
Qed.

(** The first missing field: it is required, missing, and every required
    field before it is present. *)
Lemma missing_field_Some (fields : list string) (sale : gmap string json) (f : string) :
  missing_field fields sale = Some f ↔
  ∃ before after, fields = before ++ f :: after
                  ∧ sale !! f = None
                  ∧ Forall (λ g, is_Some (sale !! g)) before.
Proof.
  induction fields as [|g fields IH]; simpl.
  - split; [discriminate|]. intros (b & a & H & _). by destruct b.
  - destruct (has_key sale g) eqn:Hg; simpl.
    + apply has_key_true in Hg. rewrite IH. split.
      * intros (b & a & -> & Hf & Hb). exists (g :: b), a. by repeat constructor.
      * intros ([|g' b] & a & Heq & Hf & Hb); simplify_eq/=.
        { destruct Hg as [? Hg]. congruence. }
        exists b, a. split; [done|]. split; [done|]. by inversion Hb.
    + assert (sale !! g = None) as Hn.
      { unfold has_key in Hg. by destruct (sale !! g). }
      split.
      * intros [= <-]. exists [], fields. by repeat constructor.
      * intros ([|g' b] & a & Heq & Hf & Hb); simplify_eq/=; [done|].
        inversion Hb as [|?? [? Hs] ?]; simplify_eq.
Qed.

(** ** The validation and the loop *)

Section Facts.
Context (builtin_str : json → string).

Lemma check_quantity_Ok (sale : gmap string json) (q : json) :
  sale !! "Quantity" = Some q →
  ∃ msg, check_quantity builtin_str sale = Ok (quantity_valid q, msg)
         ∧ (quantity_valid q = true → msg = EmptyString).
Proof.
  intros Hq. unfold check_quantity, getitem. rewrite Hq. simpl.
  unfold quantity_valid.
  destruct q as [|b|z|f|s|l|d]; simpl;
    try destruct (z <? 0); try destruct (flt f fzero); simpl;
    (eexists; split; [reflexivity|done]).
Qed.

Lemma fields_present_lookup (sale : gmap string json) :
  fields_present sale = true →
  ∃ q p, sale !! "Quantity" = Some q ∧ sale !! "Product" = Some p.
Proof.
  unfold fields_present, required_fields. simpl.
  rewrite !andb_true_iff, !has_key_true.
  intros (_ & _ & [p Hp] & [q Hq] & _). eauto.
Qed.

Lemma validate_sale_item_spec (sale : gmap string json) (line_num : nat) :
  match missing_field required_fields sale with
  | Some field =>
      validate_sale_item builtin_str sale line_num
      = Ok (false, "Missing required field '" +:+ field +:+ "'")
  | None =>
      ∃ q msg, sale !! "Quantity" = Some q
               ∧ validate_sale_item builtin_str sale line_num = Ok (quantity_valid q, msg)
               ∧ (quantity_valid q = true → msg = EmptyString)
  end.
Proof.
  unfold validate_sale_item.
  destruct (missing_field required_fields sale) as [f|] eqn:Hm; [done|].
  apply missing_field_None, fields_present_lookup in Hm as (q & p & Hq & _).
  destruct (check_quantity_Ok sale q Hq) as (msg & -> & Hmsg). eauto.
Qed.

Lemma validate_sale_item_returns (sale : gmap string json) (line_num : nat) :
  ∃ b msg, validate_sale_item builtin_str sale line_num = Ok (b, msg).
Proof.
  pose proof (validate_sale_item_spec sale line_num) as H.
  destruct (missing_field required_fields sale); [eauto|].
  destruct H as (q & msg & _ & -> & _). eauto.
Qed.

Lemma validate_sale_item_valid (sale : gmap string json) (line_num : nat) (msg : string) :
  validate_sale_item builtin_str sale line_num = Ok (true, msg) ↔
  fields_present sale = true
  ∧ (∃ q, sale !! "Quantity" = Some q ∧ quantity_valid q = true)
  ∧ msg = EmptyString.
Proof.
  pose proof (validate_sale_item_spec sale line_num) as H.
  unfold fields_present.
  destruct (missing_field required_fields sale) as [f|] eqn:Hm.
  - rewrite H. split; [discriminate|]. intros (Hf & _).
    apply missing_field_None in Hf. congruence.
  - destruct H as (q & m & Hq & -> & Hmsg). apply missing_field_None in Hm. split.
    + intros [= Hv <-]. eauto 10.
    + intros (_ & (q' & Hq' & Hv) & ->). simplify_eq. rewrite Hv. by rewrite Hmsg.
Qed.


Lemma contains_Ok (catalogue : gmap pykey json) (p : json) (b : bool) :
  contains catalogue p = Ok b → in_catalogue catalogue p = b.
Proof.
  unfold contains, in_catalogue. destruct (to_key p) as [[k|]|e]; simpl; try by intros [= <-].
  intros [= <-]. destruct (catalogue !! k) as [v|] eqn:Hk.
  - apply bool_decide_eq_true. by exists v.
  - apply bool_decide_eq_false. by intros [? ?].
Qed.

Lemma in_catalogue_lookup (catalogue : gmap pykey json) (p : json) :
  in_catalogue catalogue p = true →
  contains catalogue p = Ok true ∧ ∃ price, lookup_item catalogue p = Ok price.
Proof.
  unfold contains, in_catalogue, lookup_item.
  destruct (to_key p) as [[k|]|e]; simpl; try discriminate.
  intros [v Hv]%bool_decide_eq_true. rewrite Hv. eauto.
Qed.

Lemma passes_checks_true (catalogue : gmap pykey json) (sale : gmap string json) :
  passes_checks catalogue sale = true ↔
  fields_present sale = true
  ∧ ∃ q p, sale !! "Quantity" = Some q ∧ sale !! "Product" = Some p
           ∧ quantity_valid q = true ∧ in_catalogue catalogue p = true.
Proof.
  unfold passes_checks. rewrite andb_true_iff. split.
  - intros [Hf H]. split; [done|].
    destruct (sale !! "Quantity") as [q|], (sale !! "Product") as [p|]; try done.
    apply andb_true_iff in H as [? ?]. eauto 10.
  - intros (Hf & q & p & -> & -> & Hq & Hp). by rewrite Hq, Hp.
Qed.

Lemma float_add_line (t : spec_float) (v : json) :
  float_add t v
  = c ← match as_number v with
        | Some n => to_float n
        | None => Raise (bad_operands "+=" (JFloat fzero) v)
        end; Ok (fadd t c).
Proof. unfold float_add. by destruct (as_number v). Qed.

Lemma sale_body_eq (catalogue : gmap pykey json) (st : tally) (idx : nat)
    (sale : gmap string json) :
  sale_body builtin_str catalogue st idx sale
  = r ← rejection builtin_str catalogue sale;
    match r with
    | Some reason => Ok (reject st (sale_error idx reason))
    | None => c ← line_cost catalogue sale; Ok (add_cost st c)
    end.
Proof.
  unfold sale_body, rejection.
  replace (validate_sale_item builtin_str sale idx)
    with (validate_sale_item builtin_str sale 0) by done.
  destruct (validate_sale_item_returns sale 0) as ([] & msg & Hv); rewrite Hv; simpl; [|done].
  apply validate_sale_item_valid in Hv as (Hf & (q & Hq & Hqv) & ->).
  destruct (fields_present_lookup sale Hf) as (q' & p & Hq' & Hp). simplify_eq.
  unfold line_cost, getitem. rewrite Hp, Hq. simpl.
  destruct (contains catalogue p) as [[]|e] eqn:Hc; simpl; [|done..].
  destruct (lookup_item catalogue p) as [price|e]; simpl; [|done].
  destruct (py_mul price q) as [cost|e]; simpl; [|done].
  rewrite float_add_line. by destruct (as_number cost) as [n|]; simpl; [destruct (to_float n)|].
Qed.

Lemma rejection_None (catalogue : gmap pykey json) (sale : gmap string json) :
  rejection builtin_str catalogue sale = Ok None ↔ passes_checks catalogue sale = true.
Proof.
  unfold rejection. rewrite passes_checks_true.
  destruct (validate_sale_item_returns sale 0) as ([] & msg & Hv); rewrite Hv; simpl.
  - apply validate_sale_item_valid in Hv as (Hf & (q & Hq & Hqv) & ->).
    destruct (fields_present_lookup sale Hf) as (q' & p & Hq' & Hp). simplify_eq.
    unfold getitem. rewrite Hp. simpl. split.
    + destruct (contains catalogue p) as [[]|e] eqn:Hc; simpl; try done.
      intros _. apply contains_Ok in Hc. eauto 10.
    + intros (_ & q' & p' & ? & ? & _ & Hin). simplify_eq.
      apply in_catalogue_lookup in Hin as [-> _]. done.
  - split; [done|]. intros (Hf & q & p & Hq & Hp & Hqv & _).
    assert (validate_sale_item builtin_str sale 0 = Ok (true, EmptyString)) as Hv'.
    { apply validate_sale_item_valid. eauto 10. }
    congruence.
Qed.

Lemma sale_body_costed (catalogue : gmap pykey json) (st : tally) (idx : nat)
    (sale : gmap string json) :
  passes_checks catalogue sale = true →
  sale_body builtin_str catalogue st idx sale
  = c ← line_cost catalogue sale; Ok (add_cost st c).
Proof. intros H%rejection_None. by rewrite sale_body_eq, H. Qed.

Lemma sale_body_rejected (catalogue : gmap pykey json) (st st' : tally) (idx : nat)
    (sale : gmap string json) :
  passes_checks catalogue sale = false →
  sale_body builtin_str catalogue st idx sale = Ok st' →
  ∃ reason, rejection builtin_str catalogue sale = Ok (Some reason)
            ∧ st' = reject st (sale_error idx reason).
Proof.
  intros Hp. rewrite sale_body_eq. intros (r & Hr & H)%bind_Ok.
  destruct r as [reason|]; [simplify_eq; eauto|].
  apply rejection_None in Hr. congruence.
Qed.


Lemma error_lines_cons (catalogue : gmap pykey json) (idx : nat)
    (sale : gmap string json) (rest : list (gmap string json)) :
  error_lines builtin_str catalogue idx (sale :: rest)
  = option_list (error_line builtin_str catalogue idx sale)
    ++ error_lines builtin_str catalogue (S idx) rest.
Proof.
  unfold error_lines. simpl. rewrite Nat.add_0_r.
  rewrite (imap_ext _ (λ i, error_line builtin_str catalogue (S idx + i)%nat)).
  - by destruct (error_line builtin_str catalogue idx sale).
  - intros i x _. simpl. f_equal. lia.
Qed.

Lemma error_lines_app (catalogue : gmap pykey json) (idx : nat)
    (l1 l2 : list (gmap string json)) :
  error_lines builtin_str catalogue idx (l1 ++ l2)
  = error_lines builtin_str catalogue idx l1
    ++ error_lines builtin_str catalogue (idx + length l1) l2.
Proof.
  revert idx. induction l1 as [|sale l1 IH]; intros idx; simpl.
  - by rewrite Nat.add_0_r.
  - rewrite !error_lines_cons, IH, <- app_assoc. do 3 f_equal. lia.
Qed.

Lemma sales_loop_app (catalogue : gmap pykey json) (st : tally) (idx : nat)
    (l1 l2 : list (gmap string json)) :
  sales_loop builtin_str catalogue st idx (l1 ++ l2)
  = st1 ← sales_loop builtin_str catalogue st idx l1;
    sales_loop builtin_str catalogue st1 (idx + length l1) l2.
Proof.
  revert st idx. induction l1 as [|sale l1 IH]; intros st idx; simpl.
  - by rewrite Nat.add_0_r.
  - destruct (sale_body builtin_str catalogue st idx sale) as [st1|e]; simpl; [|done].
    by rewrite IH, Nat.add_succ_r.
Qed.

(** What a loop that returns has done. *)
Lemma sales_loop_spec (catalogue : gmap pykey json) (sales_records : list (gmap string json)) :
  ∀ (st st' : tally) (idx : nat),
  sales_loop builtin_str catalogue st idx sales_records = Ok st' →
  errors st' = errors st ++ error_lines builtin_str catalogue idx sales_records
  ∧ printed st' = printed st
      ++ map (String.append "WARNING: ") (error_lines builtin_str catalogue idx sales_records)
  ∧ (∃ costs, Forall2 (λ sale c, line_cost catalogue sale = Ok c)
                (List.filter (passes_checks catalogue) sales_records) costs
              ∧ total_cost st' = foldl fadd (total_cost st) costs)
  ∧ (length (error_lines builtin_str catalogue idx sales_records)
     + length (List.filter (passes_checks catalogue) sales_records)
     = length sales_records)%nat.
Proof.
  induction sales_records as [|sale rest IH]; intros st st' idx; simpl.
  - intros [= <-]. rewrite !app_nil_r. repeat split; try done. exists []. by split.
  - intros (st1 & Hbody & Hloop)%bind_Ok.
    destruct (IH _ _ _ Hloop) as (He & Hp & (costs & Hcosts & Ht) & Hlen).
    rewrite error_lines_cons. unfold error_line at 1 2 3.
    destruct (passes_checks catalogue sale) eqn:Hpass.
    + rewrite sale_body_costed in Hbody by done.
      apply bind_Ok in Hbody as (c & Hc & [= <-]).
      pose proof Hpass as ->%rejection_None. simpl in *.
      repeat split; try done.
      * exists (c :: costs). split; [by constructor|done].
      * lia.
    + destruct (sale_body_rejected _ _ _ _ _ Hpass Hbody) as (reason & -> & ->).
      simpl in *. rewrite He, Hp, <- !app_assoc. repeat split; try done.
      * by exists costs.
      * lia.
Qed.

(** The total a loop returns depends neither on the position of the
    records nor on the errors collected so far. *)
Lemma sales_loop_total (catalogue : gmap pykey json) (sales_records : list (gmap string json)) :
  ∀ (st st' st2 : tally) (idx idx2 : nat),
  sales_loop builtin_str catalogue st idx sales_records = Ok st' →
  total_cost st2 = total_cost st →
  ∃ st2', sales_loop builtin_str catalogue st2 idx2 sales_records = Ok st2'
          ∧ total_cost st2' = total_cost st'.
Proof.
  induction sales_records as [|sale rest IH]; intros st st' st2 idx idx2; simpl.
  - intros [= <-] ?. eauto.
  - intros (st1 & Hbody & Hloop)%bind_Ok Ht.
    rewrite sale_body_eq in Hbody. apply bind_Ok in Hbody as (r & Hr & Hbody).
    rewrite sale_body_eq, Hr. simpl. destruct r as [reason|].
    + injection Hbody as <-. simpl. eapply IH; [done|]. done.
    + apply bind_Ok in Hbody as (c & Hc & [= <-]). rewrite Hc. simpl.
      eapply IH; [done|]. simpl. by rewrite Ht.
Qed.

(** Dropping the records that fail a check changes neither the fact that
    the loop returns nor its total, and leaves no error. *)
Lemma sales_loop_filter (catalogue : gmap pykey json) (sales_records : list (gmap string json)) :
  ∀ (st st' st2 : tally) (idx idx2 : nat),
  sales_loop builtin_str catalogue st idx sales_records = Ok st' →
  total_cost st2 = total_cost st →
  sales_loop builtin_str catalogue st2 idx2 (List.filter (passes_checks catalogue) sales_records)
  = Ok {| total_cost := total_cost st'; errors := errors st2; printed := printed st2 |}.
Proof.
  induction sales_records as [|sale rest IH]; intros st st' st2 idx idx2; simpl.
  - intros [= <-] <-. by destruct st2.
  - intros (st1 & Hbody & Hloop)%bind_Ok Ht.
    destruct (passes_checks catalogue sale) eqn:Hpass; simpl.
    + rewrite sale_body_costed in Hbody |- * by done.
      apply bind_Ok in Hbody as (c & Hc & [= <-]). rewrite Hc. simpl.
      rewrite (IH _ _ (add_cost st2 c) _ (S idx2) Hloop); [done|].
      simpl. by rewrite Ht.
    + destruct (sale_body_rejected _ _ _ _ _ Hpass Hbody) as (reason & _ & ->).
      by rewrite (IH _ _ st2 _ idx2 Hloop).
Qed.

(** Every record of a loop that returns is either costed or rejected with
    one reason. *)
Lemma sales_loop_verdicts (catalogue : gmap pykey json) (sales_records : list (gmap string json)) :
  ∀ (st st' : tally) (idx : nat),
  sales_loop builtin_str catalogue st idx sales_records = Ok st' →
  Forall (λ sale, if passes_checks catalogue sale
                  then rejection builtin_str catalogue sale = Ok None
                  else ∃ reason, rejection builtin_str catalogue sale = Ok (Some reason))
    sales_records.
Proof.
  induction sales_records as [|sale rest IH]; intros st st' idx; simpl; [by constructor|].
  intros (st1 & Hbody & Hloop)%bind_Ok. constructor; [|by eapply IH].
  destruct (passes_checks catalogue sale) eqn:Hpass.
  - by apply rejection_None.
  - destruct (sale_body_rejected _ _ _ _ _ Hpass Hbody) as (reason & Hr & _). eauto.
Qed.

End Facts.

(** ** The catalogue *)

Lemma catalogue_loop_app (catalogue : gmap pykey json) (l1 l2 : list (gmap string json)) :
  catalogue_loop catalogue (l1 ++ l2)
  = c ← catalogue_loop catalogue l1; catalogue_loop c l2.
Proof.
  revert catalogue. induction l1 as [|product l1 IH]; intros catalogue; simpl; [done|].
  by destruct (catalogue_body catalogue product) as [c|e]; simpl.
Qed.

Lemma catalogue_body_skip (catalogue : gmap pykey json) (product : gmap string json) :
  has_key product "title" && has_key product "price" = false →
  catalogue_body catalogue product = Ok catalogue.
Proof. unfold catalogue_body. by intros ->. Qed.

Lemma catalogue_body_insert (catalogue : gmap pykey json) (product : gmap string json)
    (t p : json) :
  product !! "title" = Some t → product !! "price" = Some p →
  catalogue_body catalogue product = setitem catalogue t p.
Proof.
  intros Ht Hp. unfold catalogue_body, has_key, getitem. by rewrite Ht, Hp.
Qed.

Lemma catalogue_body_other (catalogue catalogue' : gmap pykey json)
    (product : gmap string json) (k : pykey) :
  catalogue_body catalogue product = Ok catalogue' →
  other_title k product →
  catalogue' !! k = catalogue !! k.
Proof.
  unfold catalogue_body, other_title, has_key, getitem.
  destruct (product !! "title") as [t|]; simpl; [|by intros [= <-]].
  destruct (product !! "price") as [p|]; simpl; [|by intros [= <-]].
  unfold setitem. intros (key & Hkey & [= <-])%bind_Ok Hother.
  destruct key as [k'|]; [|done]. apply lookup_insert_ne. intros ->. eauto.
Qed.

Lemma catalogue_loop_other (products : list (gmap string json)) (k : pykey) :
  ∀ catalogue catalogue',
  catalogue_loop catalogue products = Ok catalogue' →
  Forall (other_title k) products →
  catalogue' !! k = catalogue !! k.
Proof.
  induction products as [|product rest IH]; intros catalogue catalogue'; simpl.
  - by intros [= <-].
  - intros (c & Hbody & Hloop)%bind_Ok [Hp Hrest]%Forall_cons.
    rewrite (IH _ _ Hloop Hrest). by eapply catalogue_body_other.
Qed.

(** The catalogue is built whenever the titles of the entries that have
    both fields are hashable. *)
Lemma catalogue_loop_returns (products : list (gmap string json)) :
  ∀ catalogue,
  Forall (λ product : gmap string json,
            ∀ t, product !! "title" = Some t → is_Some (product !! "price") →
                 returns (to_key t) = true) products →
  ∃ catalogue', catalogue_loop catalogue products = Ok catalogue'.
Proof.
  induction products as [|product rest IH]; intros catalogue; simpl; [eauto|].
  intros [Hp Hrest]%Forall_cons.
  assert (∃ c, catalogue_body catalogue product = Ok c) as [c ->].
  { unfold catalogue_body, has_key, getitem.
    destruct (product !! "title") as [t|] eqn:Ht; simpl; [|eauto].
    destruct (product !! "price") as [p|] eqn:Hprice; simpl; [|eauto].
    unfold setitem. specialize (Hp t eq_refl ltac:(eauto)).
    destruct (to_key t); [eauto|done]. }
  simpl. by apply IH.
Qed.

(** ** Returning, and the operands of a costed record *)

Section Returns.
Context (builtin_str : json → string).

Lemma compute_sales_Ok (catalogue : gmap pykey json) (sales_records : list (gmap string json))
    (total : spec_float) (errs : list string) :
  compute_sales builtin_str catalogue sales_records = Ok (total, errs) ↔
  ∃ st, sales_loop builtin_str catalogue start 1 sales_records = Ok st
        ∧ total_cost st = total ∧ errors st = errs.
Proof.
  unfold compute_sales. rewrite bind_Ok. split.
  - intros (st & H & [= <- <-]). eauto.
  - intros (st & H & <- & <-). eauto.
Qed.

Lemma returns_Ok {A} (m : result A) : returns m = true ↔ ∃ a, m = Ok a.
Proof. destruct m; simpl; split; eauto; try done. by intros [? ?]. Qed.

Lemma returns_bind {A B} (m : result A) (k : A → result B) :
  returns (m ≫= k) = match m with Ok a => returns (k a) | Raise _ => false end.
Proof. by destruct m. Qed.

Lemma to_float_returns (z : Z) : returns (to_float (NInt z)) = fits_float z.
Proof. simpl. by destruct (fits_float z). Qed.

Lemma costable_spec (price quantity : json) :
  isinstance_int_float quantity = true →
  returns (sale_cost ← py_mul price quantity;
           match as_number sale_cost with
           | Some n => to_float n
           | None => Raise (bad_operands "+=" (JFloat fzero) sale_cost)
           end) = costable price quantity.
Proof.
  intros Hq. unfold costable, py_mul.
  destruct (as_number quantity) as [[y|g]|] eqn:Hn;
    [| |by destruct quantity].
  - destruct (as_number price) as [[x|f]|] eqn:Hp; simpl.
    + by destruct (fits_float (x * y)).
    + by destruct (fits_float y).
    + destruct price; simplify_eq/=; done.
  - destruct (as_number price) as [[x|f]|] eqn:Hp; simpl.
    + by destruct (fits_float x).
    + done.
    + destruct price; simplify_eq/=; done.
Qed.

Lemma sale_body_returns (catalogue : gmap pykey json) (st : tally) (idx : nat)
    (sale : gmap string json) :
  returns (sale_body builtin_str catalogue st idx sale) = record_safe catalogue sale.
Proof.
  rewrite sale_body_eq. unfold rejection, record_safe.
  destruct (validate_sale_item_returns builtin_str sale 0) as (b & msg & Hv).
  rewrite Hv. simpl. destruct b; simpl.
  - apply validate_sale_item_valid in Hv as (Hf & (q & Hq & Hqv) & ->).
    destruct (fields_present_lookup sale Hf) as (q' & p & Hq' & Hp). simplify_eq.
    rewrite Hq, Hp, Hf, Hqv. simpl. unfold getitem, contains. rewrite Hp. simpl.
    destruct (to_key p) as [key|e] eqn:Hk; simpl; [|done].
    destruct (key ≫= (catalogue !!.)) as [price|] eqn:Hprice; simpl; [|done].
    rewrite returns_bind. unfold line_cost, getitem, lookup_item.
    rewrite Hp, Hq. simpl. rewrite Hk. simpl. rewrite Hprice. simpl.
    rewrite <- costable_spec.
    + by destruct (py_mul price q) as [c|]; simpl; [destruct (as_number c) as [n|]; simpl;
        [destruct (to_float n)|]|].
    + unfold quantity_valid in Hqv. by apply andb_true_iff in Hqv as [? _].
  - destruct (sale !! "Quantity") as [q|] eqn:Hq; [|done].
    destruct (sale !! "Product") as [p|] eqn:Hp; [|done].
    destruct (fields_present sale && quantity_valid q) eqn:Hfq; [|done].
    apply andb_true_iff in Hfq as [Hf Hqv].
    assert (validate_sale_item builtin_str sale 0 = Ok (true, EmptyString)) as Hv'.
    { apply validate_sale_item_valid. eauto 10. }
    congruence.
Qed.

Lemma sales_loop_returns (catalogue : gmap pykey json) (sales_records : list (gmap string json)) :
  ∀ (st : tally) (idx : nat),
  returns (sales_loop builtin_str catalogue st idx sales_records)
  = forallb (record_safe catalogue) sales_records.
Proof.
  induction sales_records as [|sale rest IH]; intros st idx; simpl; [done|].
  rewrite returns_bind, <- (sale_body_returns catalogue st idx sale).
  destruct (sale_body builtin_str catalogue st idx sale); simpl; [apply IH|done].
Qed.

Lemma py_mul_bool (price : json) (b : bool) (v : json) :
  py_mul price (JBool b) = Ok v ↔ py_mul price (JInt (if b then 1 else 0)) = Ok v.
Proof.
  unfold py_mul. simpl. replace (Z.b2z b) with (if b then 1 else 0) by by destruct b.
  destruct (as_number price) as [[]|]; [done..|].
  by destruct (seq_repeat price _).
Qed.

(** [compute_sales] returns exactly on the lists of safe records. *)
Lemma compute_sales_returns (catalogue : gmap pykey json)
    (sales_records : list (gmap string json)) :
  (∃ total errs, compute_sales builtin_str catalogue sales_records = Ok (total, errs))
  ↔ forallb (record_safe catalogue) sales_records = true.
Proof.
  rewrite <- (sales_loop_returns catalogue sales_records start 1), returns_Ok.
  unfold compute_sales. split.
  - intros (total & errs & (st & -> & _)%bind_Ok). eauto.
  - intros (st & ->). simpl. eauto.
Qed.

End Returns.

(** ** Binary64 rounding *)

(** *** Binary digits *)

Lemma digits2_pos_size (p : positive) : digits2_pos p = Pos.size p.
Proof. induction p; simpl; congruence. Qed.

Lemma Zdigits2_log2 (m : Z) : 0 < m → Zdigits2 m = Z.log2 m + 1.
Proof.
  destruct m as [|p|p]; try lia. intros _. simpl. rewrite digits2_pos_size.
  destruct p; simpl; lia.
Qed.

Lemma Zdigits2_bounds (m : Z) :
  0 < m → 2 ^ (Zdigits2 m - 1) ≤ m < 2 ^ Zdigits2 m.
Proof.
  intros Hm. rewrite Zdigits2_log2 by done.
  replace (Z.log2 m + 1 - 1) with (Z.log2 m) by lia.
  apply Z.log2_spec. done.
Qed.

Lemma Zdigits2_pos (m : Z) : 0 < m → 0 < Zdigits2 m.
Proof. intros Hm. rewrite Zdigits2_log2 by done. pose proof (Z.log2_nonneg m). lia. Qed.

Lemma Zdigits2_mono (a b : Z) : 0 < a → a ≤ b → Zdigits2 a ≤ Zdigits2 b.
Proof.
  intros Ha Hab. rewrite !Zdigits2_log2 by lia.
  pose proof (Z.log2_le_mono a b Hab). lia.
Qed.

Lemma Zdigits2_shiftl (m k : Z) : 0 < m → 0 ≤ k → Zdigits2 (m * 2 ^ k) = Zdigits2 m + k.
Proof.
  intros Hm Hk. assert (0 < 2 ^ k) by (apply Z.pow_pos_nonneg; lia).
  rewrite !Zdigits2_log2 by nia. rewrite Z.log2_mul_pow2 by lia. lia.
Qed.

Lemma Zdigits2_shiftr (m k : Z) :
  0 < m → 0 ≤ k < Zdigits2 m →
  0 < m / 2 ^ k ∧ Zdigits2 (m / 2 ^ k) = Zdigits2 m - k.
Proof.
  intros Hm Hk. pose proof (Zdigits2_bounds m Hm) as [Hlo Hhi].
  assert (0 < 2 ^ k) as Hk2 by (apply Z.pow_pos_nonneg; lia).
  assert (2 ^ (Zdigits2 m - 1 - k) ≤ m / 2 ^ k) as Hq.
  { apply Z.div_le_lower_bound; [done|]. rewrite <- Z.pow_add_r by lia.
    replace (k + (Zdigits2 m - 1 - k)) with (Zdigits2 m - 1) by lia. done. }
  assert (0 < 2 ^ (Zdigits2 m - 1 - k)) by (apply Z.pow_pos_nonneg; lia).
  split; [lia|].
  rewrite (Zdigits2_log2 (m / _)) by lia.
  rewrite <- Z.shiftr_div_pow2 by lia. rewrite Z.log2_shiftr by done.
  rewrite Zdigits2_log2 in * by done. lia.
Qed.

Lemma div_small_digits (m k : Z) : 0 < m → Zdigits2 m ≤ k → m / 2 ^ k = 0.
Proof.
  intros Hm Hk. apply Z.div_small. pose proof (Zdigits2_bounds m Hm) as [_ Hhi].
  pose proof (Zdigits2_pos m Hm).
  assert (2 ^ Zdigits2 m ≤ 2 ^ k) by (apply Z.pow_le_mono_r; lia). lia.
Qed.

(** *** The format *)

Lemma fexp_eq (e : Z) : fexp prec emax e = Z.max (e - 53) (-1074).
Proof. reflexivity. Qed.

(** *** Shifts *)

Lemma iter_pos_invariant {A} (f : A → A) (P : A → Prop) :
  (∀ x, P x → P (f x)) → ∀ n x, P x → P (SpecFloat.iter_pos f n x).
Proof. intros Hf. induction n; simpl; auto. Qed.

Lemma shr_1_m (mrs : shr_record) :
  0 ≤ shr_m mrs → shr_m (shr_1 mrs) = shr_m mrs / 2.
Proof.
  destruct mrs as [m r s]. simpl. intros Hm. rewrite <- Z.div2_div.
  by destruct m as [|[]|].
Qed.

Lemma iter_shr_1_m (n : positive) :
  ∀ mrs, 0 ≤ shr_m mrs →
         shr_m (SpecFloat.iter_pos shr_1 n mrs) = shr_m mrs / 2 ^ Z.pos n.
Proof.
  assert (∀ m k, 0 ≤ m → 0 ≤ k → 0 ≤ m / 2 ^ k) as Hnn.
  { intros. apply Z.div_pos; [done|]. apply Z.pow_pos_nonneg; lia. }
  assert (∀ k, 0 ≤ k → 0 < 2 ^ k) as Hpow.
  { intros. apply Z.pow_pos_nonneg; lia. }
  induction n as [n IH|n IH|]; intros mrs Hm; simpl.
  - pose proof (shr_1_m mrs Hm) as H1.
    assert (0 ≤ shr_m (shr_1 mrs)) as Hm1 by (rewrite H1; apply Z.div_pos; lia).
    pose proof (IH _ Hm1) as H2.
    assert (0 ≤ shr_m (SpecFloat.iter_pos shr_1 n (shr_1 mrs))) as Hm2
      by (rewrite H2; apply Hnn; lia).
    rewrite (IH _ Hm2), H2, H1.
    rewrite !Z.div_div by (try apply Hpow; lia). f_equal.
    replace (Z.pos n~1) with (1 + Z.pos n + Z.pos n) by lia.
    rewrite !Z.pow_add_r by lia. rewrite Z.pow_1_r. ring.
  - pose proof (IH _ Hm) as H1.
    assert (0 ≤ shr_m (SpecFloat.iter_pos shr_1 n mrs)) as Hm1
      by (rewrite H1; apply Hnn; lia).
    rewrite (IH _ Hm1), H1.
    rewrite !Z.div_div by (try apply Hpow; lia). f_equal.
    replace (Z.pos n~0) with (Z.pos n + Z.pos n) by lia.
    rewrite !Z.pow_add_r by lia. ring.
  - by rewrite shr_1_m.
Qed.

Lemma pow2_pos (k : Z) : 0 ≤ k → 0 < 2 ^ k.
Proof. intros. apply Z.pow_pos_nonneg; lia. Qed.

Lemma shr_m_of_loc (m : Z) (l : location) : shr_m (shr_record_of_loc m l) = m.
Proof. by destruct l as [|[]]. Qed.

Lemma shr_spec (mrs : shr_record) (e n : Z) :
  0 ≤ shr_m mrs →
  shr_m (shr mrs e n).1 = shr_m mrs / 2 ^ Z.max 0 n ∧ (shr mrs e n).2 = e + Z.max 0 n.
Proof.
  intros Hm. destruct n as [|p|p]; simpl.
  - rewrite Z.div_1_r. split; [done|lia].
  - rewrite iter_shr_1_m by done. split; [done|lia].
  - rewrite Z.div_1_r. split; [done|lia].
Qed.

(** A right shift to the exponent the format asks for, if it is larger. *)
Lemma shr_fexp_spec (m e : Z) (l : location) :
  0 ≤ m →
  shr_m (shr_fexp prec emax m e l).1
  = m / 2 ^ (Z.max e (fexp prec emax (Zdigits2 m + e)) - e)
  ∧ (shr_fexp prec emax m e l).2 = Z.max e (fexp prec emax (Zdigits2 m + e)).
Proof.
  intros Hm. unfold shr_fexp.
  destruct (shr_spec (shr_record_of_loc m l) e (fexp prec emax (Zdigits2 m + e) - e))
    as [H1 H2]; [by rewrite shr_m_of_loc|].
  rewrite H1, H2, shr_m_of_loc. split; [do 2 f_equal; lia|lia].
Qed.

Lemma round_nearest_even_bounds (m : Z) (l : location) :
  m ≤ round_nearest_even m l ≤ m + 1.
Proof.
  destruct l as [|[]]; simpl; try lia. destruct (Z.even m); lia.
Qed.

(** Rounding a non-negative mantissa: two shifts around a round to nearest. *)
Lemma binary_round_aux_spec (sx : bool) (mx ex : Z) (lx : location) :
  0 ≤ mx →
  ∃ m2,
    let e1 := Z.max ex (fexp prec emax (Zdigits2 mx + ex)) in
    let e3 := Z.max e1 (fexp prec emax (Zdigits2 m2 + e1)) in
    mx / 2 ^ (e1 - ex) ≤ m2 ≤ mx / 2 ^ (e1 - ex) + 1
    ∧ binary_round_aux prec emax sx mx ex lx
      = match m2 / 2 ^ (e3 - e1) with
        | 0 => S754_zero sx
        | Z.pos m => if e3 <=? emax - prec then S754_finite sx m e3 else S754_infinity sx
        | Z.neg _ => S754_nan
        end.
Proof.
  intros Hm. unfold binary_round_aux.
  destruct (shr_fexp_spec mx ex lx Hm) as [H1 H2].
  destruct (shr_fexp prec emax mx ex lx) as [mrs' e']. simpl in H1, H2. subst e'.
  set (m2 := round_nearest_even (shr_m mrs') (loc_of_shr_record mrs')).
  pose proof (round_nearest_even_bounds (shr_m mrs') (loc_of_shr_record mrs')) as Hb.
  fold m2 in Hb. rewrite H1 in Hb.
  assert (0 ≤ m2) as Hm2.
  { assert (0 ≤ mx / 2 ^ (Z.max ex (fexp prec emax (Zdigits2 mx + ex)) - ex)); [|lia].
    apply Z.div_pos; [done|]. apply pow2_pos. lia. }
  exists m2. split; [done|].
  destruct (shr_fexp_spec m2 (Z.max ex (fexp prec emax (Zdigits2 mx + ex))) loc_Exact Hm2)
    as [H3 H4].
  destruct (shr_fexp prec emax m2 _ loc_Exact) as [mrs'' e'']. simpl in H3, H4.
  by rewrite H3, H4.
Qed.

Lemma bounded_iff (m : positive) (e : Z) :
  bounded prec emax m e = true ↔
  Z.max (Zdigits2 (Z.pos m) + e - 53) (-1074) = e ∧ e ≤ 971.
Proof.
  unfold bounded, canonical_mantissa. rewrite andb_true_iff, Z.eqb_eq, Z.leb_le.
  rewrite fexp_eq. done.
Qed.

(** The exponent the format asks for does not decrease when a positive
    mantissa is shifted right to it and then rounded up. *)
Lemma round_exponent (mx ex m2 : Z) :
  0 < mx →
  let e1 := Z.max (Zdigits2 mx + ex - 53) (-1074) in
  ex ≤ e1 →
  mx / 2 ^ (e1 - ex) ≤ m2 ≤ mx / 2 ^ (e1 - ex) + 1 →
  0 < m2 →
  e1 ≤ Z.max (Zdigits2 m2 + e1 - 53) (-1074).
Proof.
  intros Hmx e1 He1 Hm2 Hpos.
  destruct (Z_lt_le_dec (e1 - ex) (Zdigits2 mx)) as [Hlt|Hge].
  - destruct (Zdigits2_shiftr mx (e1 - ex) Hmx) as [Hm1 Hd1]; [lia|].
    pose proof (Zdigits2_mono (mx / 2 ^ (e1 - ex)) m2 Hm1). lia.
  - pose proof (Zdigits2_pos m2 Hpos). lia.
Qed.

(** Rounding (an aligned mantissa) gives a value of the format. *)
Lemma binary_round_aux_valid (sx : bool) (mx ex : Z) (lx : location) :
  0 < mx → ex ≤ fexp prec emax (Zdigits2 mx + ex) →
  valid (binary_round_aux prec emax sx mx ex lx).
Proof.
  intros Hmx He. destruct (binary_round_aux_spec sx mx ex lx) as (m2 & Hm2 & ->); [lia|].
  rewrite !fexp_eq in *. simpl in Hm2. change (emax - prec) with 971.
  set (e1 := Z.max (Zdigits2 mx + ex - 53) (-1074)) in *.
  replace (Z.max ex e1) with e1 in * by lia.
  assert (0 ≤ mx / 2 ^ (e1 - ex)) as Hm1.
  { apply Z.div_pos; [lia|]. apply pow2_pos. lia. }
  destruct (Z.eq_dec m2 0) as [->|Hne].
  { rewrite Z.div_0_l; [done|]. apply Z.pow_nonzero; lia. }
  pose proof (round_exponent mx ex m2 Hmx He Hm2) as Hq. fold e1 in Hq.
  set (e3 := Z.max (Zdigits2 m2 + e1 - 53) (-1074)) in *.
  replace (Z.max e1 e3) with e3 by lia.
  destruct (m2 / 2 ^ (e3 - e1)) as [|m3|m3] eqn:Hm3; [done| |done].
  destruct (e3 <=? 971) eqn:Hle; [|done]. apply Z.leb_le in Hle.
  unfold valid. simpl. apply bounded_iff. split; [|done].
  destruct (Z_lt_le_dec (e3 - e1) (Zdigits2 m2)) as [Hlt|Hge].
  - destruct (Zdigits2_shiftr m2 (e3 - e1)) as [_ Hd]; [lia..|].
    rewrite Hm3 in Hd. lia.
  - rewrite div_small_digits in Hm3 by lia. done.
Qed.

(** Rounding keeps the sign. *)
Lemma binary_round_aux_sign (sx : bool) (mx ex : Z) (lx : location) :
  0 ≤ mx →
  match binary_round_aux prec emax sx mx ex lx with
  | S754_zero s | S754_infinity s | S754_finite s _ _ => s = sx
  | S754_nan => False
  end.
Proof.
  intros Hmx. destruct (binary_round_aux_spec sx mx ex lx) as (m2 & Hm2 & ->); [lia|].
  simpl in Hm2.
  set (e1 := Z.max ex _) in *. set (e3 := Z.max e1 _).
  assert (0 ≤ m2 / 2 ^ (e3 - e1)).
  { apply Z.div_pos; [|apply pow2_pos; lia].
    assert (0 ≤ mx / 2 ^ (e1 - ex)); [|lia].
    apply Z.div_pos; [lia|]. apply pow2_pos. lia. }
  destruct (m2 / 2 ^ (e3 - e1)); [done| |lia]. by destruct (e3 <=? _).
Qed.

Lemma second_shift_pos (m2 e1 : Z) :
  0 < m2 → -1074 ≤ e1 →
  0 < m2 / 2 ^ (Z.max e1 (Z.max (Zdigits2 m2 + e1 - 53) (-1074)) - e1).
Proof.
  intros Hm2 He1. pose proof (Zdigits2_pos m2 Hm2).
  destruct (Zdigits2_shiftr m2 (Z.max e1 (Z.max (Zdigits2 m2 + e1 - 53) (-1074)) - e1));
    [done|lia|done].
Qed.

Lemma flt_finite_ge (m m0 : positive) (e e0 : Z) :
  e0 < e ∨ (e0 = e ∧ Z.pos m0 ≤ Z.pos m) →
  flt (S754_finite false m e) (S754_finite false m0 e0) = false.
Proof.
  intros H. unfold flt, SFltb. simpl.
  destruct (Z.compare_spec e e0) as [->|Hlt|Hgt]; [|lia|done].
  fold (Pos.compare m m0). destruct (Pos.compare_spec m m0); try done. lia.
Qed.

(** Rounding is monotone: the rounded value is not below a positive value
    of the format that the exact value is not below. *)
Lemma binary_round_aux_ge (mx ex : Z) (lx : location) (m0 : positive) (e0 : Z) :
  0 < mx → ex ≤ fexp prec emax (Zdigits2 mx + ex) →
  bounded prec emax m0 e0 = true →
  ex ≤ e0 → Z.pos m0 * 2 ^ (e0 - ex) ≤ mx →
  flt (binary_round_aux prec emax false mx ex lx) (S754_finite false m0 e0) = false.
Proof.
  intros Hmx He [Hc0 _]%bounded_iff Hex Hle.
  destruct (binary_round_aux_spec false mx ex lx) as (m2 & Hm2 & ->); [lia|].
  rewrite !fexp_eq in *. simpl in Hm2. change (emax - prec) with 971.
  set (e1 := Z.max (Zdigits2 mx + ex - 53) (-1074)) in *.
  replace (Z.max ex e1) with e1 in * by lia.
  assert (Zdigits2 (Z.pos m0) + e0 - ex ≤ Zdigits2 mx) as Hd.
  { replace (Zdigits2 (Z.pos m0) + e0 - ex) with (Zdigits2 (Z.pos m0) + (e0 - ex)) by lia.
    rewrite <- Zdigits2_shiftl by lia. apply Zdigits2_mono; [|done].
    pose proof (pow2_pos (e0 - ex)). nia. }
  assert (e0 ≤ e1) as He01 by lia.
  assert (0 < m2 ∧ (e0 < e1 ∨ Z.pos m0 ≤ m2)) as [Hm2pos Hcase].
  { destruct (Z.eq_dec e0 e1) as [Heq|Hne].
    - assert (Z.pos m0 ≤ mx / 2 ^ (e1 - ex)); [|lia].
      apply Z.div_le_lower_bound; [apply pow2_pos; lia|]. rewrite <- Heq. lia.
    - destruct (Zdigits2_shiftr mx (e1 - ex) Hmx) as [Hm1 _]; [|lia].
      pose proof (Zdigits2_pos mx Hmx). lia. }
  pose proof (second_shift_pos m2 e1 Hm2pos) as Hm3.
  set (e3 := Z.max e1 (Z.max (Zdigits2 m2 + e1 - 53) (-1074))) in *.
  destruct (m2 / 2 ^ (e3 - e1)) as [|m3|m3] eqn:Hq; [lia| |lia].
  destruct (e3 <=? 971); [|done].
  apply flt_finite_ge.
  destruct (Z.eq_dec e3 e1) as [Heq|Hne]; [|lia].
  rewrite Heq, Z.sub_diag, Z.div_1_r in Hq. lia.
Qed.

(** *** Alignment and normalisation *)

Lemma iter_xO_pow (m d : positive) : Z.pos (Pos.iter xO m d) = Z.pos m * 2 ^ Z.pos d.
Proof.
  induction d as [|d IH] using Pos.peano_ind.
  - simpl. lia.
  - rewrite Pos.iter_succ, Pos2Z.inj_xO, IH, Pos2Z.inj_succ, Z.pow_succ_r by lia. lia.
Qed.

Lemma shl_align_spec (mx : positive) (ex ex' : Z) :
  Z.pos (shl_align mx ex ex').1 = Z.pos mx * 2 ^ (ex - (shl_align mx ex ex').2)
  ∧ (shl_align mx ex ex').2 = Z.min ex ex'.
Proof.
  unfold shl_align. destruct (ex' - ex) as [|d|d] eqn:Hd; simpl.
  - rewrite Z.sub_diag. lia.
  - rewrite Z.sub_diag. lia.
  - rewrite iter_xO_pow. replace (ex - ex') with (Z.pos d) by lia. lia.
Qed.

Lemma binary_round_aligned (mx : positive) (ex : Z) :
  let mz := (shl_align mx ex (fexp prec emax (Z.pos (digits2_pos mx) + ex))).1 in
  let ez := (shl_align mx ex (fexp prec emax (Z.pos (digits2_pos mx) + ex))).2 in
  Z.pos mz = Z.pos mx * 2 ^ (ex - ez) ∧ ez ≤ ex
  ∧ ez ≤ fexp prec emax (Zdigits2 (Z.pos mz) + ez).
Proof.
  intros mz ez.
  destruct (shl_align_spec mx ex (fexp prec emax (Z.pos (digits2_pos mx) + ex)))
    as [Hm He].
  fold mz in Hm. fold ez in Hm, He. split; [done|]. split; [lia|].
  rewrite Hm, Zdigits2_shiftl by lia.
  replace (Zdigits2 (Z.pos mx) + (ex - ez) + ez) with (Z.pos (digits2_pos mx) + ex)
    by (simpl; lia).
  lia.
Qed.

Lemma binary_round_valid (sx : bool) (mx : positive) (ex : Z) :
  valid (binary_round prec emax sx mx ex).
Proof.
  unfold binary_round. pose proof (binary_round_aligned mx ex) as (Hm & He & Hp).
  destruct (shl_align mx ex _) as [mz ez]. simpl in *.
  by apply binary_round_aux_valid.
Qed.

Lemma binary_round_sign (sx : bool) (mx : positive) (ex : Z) :
  match binary_round prec emax sx mx ex with
  | S754_zero s | S754_infinity s | S754_finite s _ _ => s = sx
  | S754_nan => False
  end.
Proof.
  unfold binary_round. destruct (shl_align mx ex _) as [mz ez].
  by apply binary_round_aux_sign.
Qed.

Lemma binary_round_ge (mx : positive) (ex : Z) (m0 : positive) (e0 : Z) :
  bounded prec emax m0 e0 = true →
  ex ≤ e0 → Z.pos m0 * 2 ^ (e0 - ex) ≤ Z.pos mx →
  flt (binary_round prec emax false mx ex) (S754_finite false m0 e0) = false.
Proof.
  intros Hb Hex Hle. unfold binary_round.
  pose proof (binary_round_aligned mx ex) as (Hm & He & Hp).
  destruct (shl_align mx ex _) as [mz ez]. simpl in *.
  apply binary_round_aux_ge; [done|done|done|lia|].
  rewrite Hm. replace (e0 - ez) with ((e0 - ex) + (ex - ez)) by lia.
  rewrite Z.pow_add_r by lia. pose proof (pow2_pos (ex - ez)). nia.
Qed.

Lemma binary_normalize_valid (m e : Z) (szero : bool) :
  valid (binary_normalize prec emax m e szero).
Proof. destruct m; simpl; [done|apply binary_round_valid..]. Qed.

(** *** Signs *)

Lemma nonneg_iff (f : spec_float) :
  nonneg f ↔ match f with
             | S754_finite true _ _ | S754_infinity true => False
             | _ => True
             end.
Proof. unfold nonneg, flt, SFltb. by destruct f as [[]|[]| |[]]. Qed.

Lemma binary_round_nonneg (mx : positive) (ex : Z) :
  nonneg (binary_round prec emax false mx ex).
Proof.
  apply nonneg_iff. pose proof (binary_round_sign false mx ex).
  by destruct (binary_round prec emax false mx ex) as [|[]| |[]].
Qed.

Lemma float_of_Z_valid (z : Z) : valid (float_of_Z z).
Proof. apply binary_normalize_valid. Qed.

Lemma float_of_Z_nonneg (z : Z) : 0 ≤ z → nonneg (float_of_Z z).
Proof.
  intros Hz. unfold float_of_Z. destruct z; simpl; [done| |lia].
  apply binary_round_nonneg.
Qed.

(** *** Addition *)

Lemma fadd_valid (x y : spec_float) : valid x → valid y → valid (fadd x y).
Proof.
  intros Hx Hy. destruct x as [sx|sx| |sx mx ex], y as [sy|sy| |sy my ey];
    try done; try by destruct sx, sy.
  apply binary_normalize_valid.
Qed.

Lemma fadd_finite_nonneg (mx my : positive) (ex ey : Z) :
  fadd (S754_finite false mx ex) (S754_finite false my ey)
  = binary_round prec emax false
      ((shl_align mx ex (Z.min ex ey)).1 + (shl_align my ey (Z.min ex ey)).1)%positive
      (Z.min ex ey).
Proof. reflexivity. Qed.

Lemma fadd_nonneg (x y : spec_float) : nonneg x → nonneg y → nonneg (fadd x y).
Proof.
  rewrite !nonneg_iff. intros Hx Hy.
  destruct x as [sx|[]| |[] mx ex], y as [sy|[]| |[] my ey]; try done;
    try by destruct sx, sy.
  rewrite fadd_finite_nonneg. apply nonneg_iff, binary_round_nonneg.
Qed.

Lemma flt_irrefl (x : spec_float) : flt x x = false.
Proof.
  unfold flt, SFltb. destruct x as [s|[]| |[] m e]; simpl; try done.
  - rewrite Z.compare_refl. fold (Pos.compare m m). by rewrite Pos.compare_refl.
  - rewrite Z.compare_refl. fold (Pos.compare m m). by rewrite Pos.compare_refl.
Qed.

(** Adding a value that is not negative does not decrease a value of the
    format. *)
Lemma fadd_ge (x y : spec_float) :
  valid x → nonneg x → nonneg y → flt (fadd x y) x = false.
Proof.
  intros Hv. rewrite !nonneg_iff. intros Hx Hy.
  destruct x as [sx|[]| |[] mx ex], y as [sy|[]| |[] my ey]; try done;
    try (by destruct sx, sy); try apply flt_irrefl.
  rewrite fadd_finite_nonneg.
  destruct (shl_align_spec mx ex (Z.min ex ey)) as [Hmx Hex].
  destruct (shl_align mx ex (Z.min ex ey)) as [mx' ex']. simpl in *. subst ex'.
  replace (ex `min` (ex `min` ey)) with (ex `min` ey) in Hmx by lia.
  apply binary_round_ge; [done|lia|]. rewrite Pos2Z.inj_add, Hmx. lia.
Qed.

(** *** Multiplication *)

Lemma fmul_nonneg (x y : spec_float) : nonneg x → nonneg y → nonneg (fmul x y).
Proof.
  rewrite !nonneg_iff. intros Hx Hy.
  destruct x as [sx|[]| |[] mx ex], y as [sy|[]| |[] my ey]; try done.
  pose proof (binary_round_aux_sign false (Z.pos (mx * my)) (ex + ey) loc_Exact) as H.
  unfold fmul. simpl.
  destruct (binary_round_aux prec emax false _ _ _) as [|[]| |[]]; try done;
    by specialize (H ltac:(lia)).
Qed.

Lemma fmul_valid (x y : spec_float) : valid x → valid y → valid (fmul x y).
Proof.
  intros Hx Hy. destruct x as [sx|sx| |sx mx ex], y as [sy|sy| |sy my ey]; try done.
  unfold fmul. simpl. apply binary_round_aux_valid; [lia|].
  unfold valid in Hx, Hy. simpl in Hx, Hy.
  apply bounded_iff in Hx as [Hx _]. apply bounded_iff in Hy as [Hy _].
  rewrite fexp_eq.
  assert (Zdigits2 (Z.pos mx) + Zdigits2 (Z.pos my) - 1 ≤ Zdigits2 (Z.pos (mx * my))).
  { rewrite !Zdigits2_log2 by lia. rewrite Pos2Z.inj_mul.
    pose proof (Z.log2_mul_below (Z.pos mx) (Z.pos my)). lia. }
  pose proof (Zdigits2_pos (Z.pos mx)). pose proof (Zdigits2_pos (Z.pos my)). lia.
Qed.

(** ** Costs of records whose price is not negative *)

Lemma as_number_nonneg (v : json) (n : number) :
  as_number v = Some n → negative v = false → well_formed v → num_nonneg n.
Proof.
  destruct v as [|b|z|f|s|l|d]; simpl; intros [= <-] Hn Hw; simpl; try done.
  - by destruct b.
  - lia.
Qed.

Lemma to_float_nonneg (n : number) (f : spec_float) :
  num_nonneg n → to_float n = Ok f → valid f ∧ nonneg f.
Proof.
  destruct n as [z|g]; simpl.
  - intros Hz. destruct (fits_float z); [|done]. intros [= <-].
    split; [apply float_of_Z_valid|by apply float_of_Z_nonneg].
  - by intros H [= <-].
Qed.

Lemma num_mul_nonneg (a b : number) (v : json) (c : spec_float) :
  num_nonneg a → num_nonneg b → num_mul a b = Ok v →
  match as_number v with
  | Some n => to_float n
  | None => Raise (bad_operands "+=" (JFloat fzero) v)
  end = Ok c →
  valid c ∧ nonneg c.
Proof.
  intros Ha Hb. unfold num_mul.
  destruct a as [x|f], b as [y|g].
  - intros [= <-]. simpl. apply (to_float_nonneg (NInt (x * y))). simpl in *. nia.
  - intros (fa & Hfa & [= <-])%bind_Ok [= <-].
    apply to_float_nonneg in Hfa as [? ?]; [|done]. destruct Hb.
    split; [by apply fmul_valid|by apply fmul_nonneg].
  - intros (fa & [= <-] & (fb & Hfb & [= <-])%bind_Ok)%bind_Ok [= <-].
    apply to_float_nonneg in Hfb as [? ?]; [|done]. destruct Ha.
    split; [by apply fmul_valid|by apply fmul_nonneg].
  - intros [= <-] [= <-]. destruct Ha, Hb.
    split; [by apply fmul_valid|by apply fmul_nonneg].
Qed.

Section Costs.
Context (catalogue : gmap pykey json).
Hypothesis prices_not_negative :
  ∀ k price, catalogue !! k = Some price → negative price = false ∧ well_formed price.

Lemma line_cost_nonneg (sale : gmap string json) (c : spec_float) :
  (∀ q, sale !! "Quantity" = Some q → well_formed q) →
  passes_checks catalogue sale = true →
  line_cost catalogue sale = Ok c →
  valid c ∧ nonneg c.
Proof.
  intros Hwf (_ & q & p & Hq & Hp & Hqv & _)%passes_checks_true.
  unfold line_cost, getitem, lookup_item. rewrite Hq, Hp. simpl.
  intros (price & Hprice & (cost & Hmul & Hc)%bind_Ok)%bind_Ok.
  apply bind_Ok in Hprice as ([k|] & _ & Hk); simpl in Hk; [|done].
  destruct (catalogue !! k) as [price'|] eqn:Hl; [|done]. injection Hk as ->.
  destruct (prices_not_negative _ _ Hl) as [Hneg Hwp].
  unfold quantity_valid in Hqv. apply andb_true_iff in Hqv as [Hnum Hnn].
  apply negb_true_iff in Hnn.
  unfold py_mul in Hmul.
  destruct (as_number q) as [nq|] eqn:Hnq; [|by destruct q].
  destruct (as_number price) as [np|] eqn:Hnp.
  - simpl in Hmul. apply (num_mul_nonneg np nq cost c); [| |by destruct np|done].
    + by apply (as_number_nonneg price).
    + apply (as_number_nonneg q); eauto.
  - destruct nq; [|by destruct (seq_repeat price 0)].
    destruct price; simplify_eq/=; done.
Qed.

End Costs.

(** ** The running total *)

Section Running.
Context (builtin_str : json → string) (catalogue : gmap pykey json).
Hypothesis prices_not_negative :
  ∀ k price, catalogue !! k = Some price → negative price = false ∧ well_formed price.

Lemma sale_body_step (st st' : tally) (idx : nat) (sale : gmap string json) :
  (∀ q, sale !! "Quantity" = Some q → well_formed q) →
  valid (total_cost st) → nonneg (total_cost st) →
  sale_body builtin_str catalogue st idx sale = Ok st' →
  valid (total_cost st') ∧ nonneg (total_cost st')
  ∧ flt (total_cost st') (total_cost st) = false
  ∧ if passes_checks catalogue sale
    then ∃ c, line_cost catalogue sale = Ok c ∧ flt c fzero = false
              ∧ total_cost st' = fadd (total_cost st) c
    else total_cost st' = total_cost st.
Proof.
  intros Hwf Hv Hn Hbody. destruct (passes_checks catalogue sale) eqn:Hpass.
  - rewrite sale_body_costed in Hbody by done.
    apply bind_Ok in Hbody as (c & Hc & [= <-]). simpl.
    destruct (line_cost_nonneg catalogue prices_not_negative sale c Hwf Hpass Hc)
      as [Hvc Hnc].
    split; [by apply fadd_valid|]. split; [by apply fadd_nonneg|].
    split; [by apply fadd_ge|]. by exists c.
  - destruct (sale_body_rejected _ _ _ _ _ _ Hpass Hbody) as (reason & _ & ->). simpl.
    repeat split; try done. apply flt_irrefl.
Qed.

Lemma sales_loop_nonneg (sales_records : list (gmap string json)) :
  ∀ (st st' : tally) (idx : nat),
  Forall (λ sale, ∀ q, sale !! "Quantity" = Some q → well_formed q) sales_records →
  valid (total_cost st) → nonneg (total_cost st) →
  sales_loop builtin_str catalogue st idx sales_records = Ok st' →
  valid (total_cost st') ∧ nonneg (total_cost st').
Proof.
  induction sales_records as [|sale rest IH]; intros st st' idx Hwf Hv Hn; simpl.
  - by intros [= <-].
  - intros (st1 & Hbody & Hloop)%bind_Ok. apply Forall_cons in Hwf as [Hsale Hrest].
    destruct (sale_body_step _ _ _ _ Hsale Hv Hn Hbody) as (Hv1 & Hn1 & _).
    by apply (IH st1 st' (S idx)).
Qed.

End Running.

(** ** Zeros *)

Lemma float_of_Z_finite (z : Z) :
  fits_float z = true →
  match float_of_Z z with
  | S754_zero _ | S754_finite _ _ _ => True
  | _ => False
  end.
Proof.
  unfold fits_float, float_of_Z.
  destruct z as [|p|p]; simpl; [done| |].
  - pose proof (binary_round_sign false p 0).
    by destruct (binary_round prec emax false p 0).
  - pose proof (binary_round_sign true p 0).
    by destruct (binary_round prec emax true p 0).
Qed.

Lemma fmul_zero_r (f : spec_float) (s : bool) :
  match f with S754_zero _ | S754_finite _ _ _ => True | _ => False end →
  is_zero (fmul f (S754_zero s)) = true.
Proof. by destruct f. Qed.

Lemma fmul_zero_l (f : spec_float) (s : bool) :
  match f with S754_zero _ | S754_finite _ _ _ => True | _ => False end →
  is_zero (fmul (S754_zero s) f) = true.
Proof. by destruct f. Qed.

Lemma fadd_zero_r (t c : spec_float) :
  is_zero c = true →
  fadd t c = t ∨ (is_zero t = true ∧ is_zero (fadd t c) = true).
Proof.
  destruct c as [s| | |]; try done. intros _.
  destruct t as [[]|[]| |]; destruct s; simpl; auto.
Qed.

Lemma fadd_fzero_zero (c : spec_float) : is_zero c = true → fadd fzero c = fzero.
Proof. by destruct c as [[]| | |]. Qed.

(** The cost of a record whose Quantity is zero and whose price is a
    finite number is a zero. *)
Lemma zero_cost (price q : json) :
  finite_price price = true → zero_quantity q = true →
  ∃ sale_cost c,
    py_mul price q = Ok sale_cost
    ∧ match as_number sale_cost with
      | Some n => to_float n
      | None => Raise (bad_operands "+=" (JFloat fzero) sale_cost)
      end = Ok c
    ∧ is_zero c = true.
Proof.
  intros Hp Hq.
  assert (∀ z, fits_float z = true → to_float (NInt z) = Ok (float_of_Z z)) as Hfit.
  { intros z Hz. simpl. by rewrite Hz. }
  assert (∀ b, fits_float (Z.b2z b) = true) as Hb by by intros [].
  assert (∃ x, as_number price = Some x
               ∧ match x with
                 | NInt z => fits_float z = true
                 | NFloat (S754_zero _ | S754_finite _ _ _) => True
                 | _ => False
                 end) as (x & Hx & Hfin).
  { destruct price as [|b|z|f|s|l|d]; try done; simpl in *; eexists; (split; [done|]);
      simpl; auto. by destruct f. }
  unfold py_mul. rewrite Hx.
  destruct q as [|b|[]|g|s|l|d]; try done; simpl in *.
  - destruct x as [z|f].
    + exists (JInt 0), (float_of_Z 0).
      split; [unfold num_mul; by rewrite Z.mul_0_r|]. by split.
    + exists (JFloat (fmul f (float_of_Z 0))), (fmul f (float_of_Z 0)).
      split; [done|]. split; [done|]. apply (fmul_zero_r f false). by destruct f.
  - destruct g as [s| | |]; try done. destruct x as [z|f].
    + exists (JFloat (fmul (float_of_Z z) (S754_zero s))),
             (fmul (float_of_Z z) (S754_zero s)).
      unfold num_mul. simpl. rewrite Hfin. simpl. split; [done|]. split; [done|].
      apply fmul_zero_r. by apply float_of_Z_finite.
    + exists (JFloat (fmul f (S754_zero s))), (fmul f (S754_zero s)).
      split; [done|]. split; [done|]. apply fmul_zero_r. by destruct f.
Qed.

(** ** The report *)

Lemma append_assoc (s1 s2 s3 : string) : (s1 +:+ s2) +:+ s3 = s1 +:+ s2 +:+ s3.
Proof.
  induction s1 as [|a s1 IH]; [reflexivity|].
  change (String a ((s1 +:+ s2) +:+ s3) = String a (s1 +:+ s2 +:+ s3)).
  by rewrite IH.
Qed.

Lemma append_empty_r (s : string) : s +:+ EmptyString = s.
Proof.
  induction s as [|a s IH]; [reflexivity|].
  change (String a (s +:+ EmptyString) = String a s). by rewrite IH.
Qed.

Lemma file_content_app (w1 w2 : list string) :
  file_content (w1 ++ w2) = file_content w1 +:+ file_content w2.
Proof.
  unfold file_content. induction w1 as [|w w1 IH]; simpl; [done|].
  by rewrite IH, append_assoc.
Qed.

Lemma file_content_singleton (w : string) : file_content [w] = w.
Proof. apply append_empty_r. Qed.

(** ** The claims *)

Section Claims.
Context (builtin_str : json → string) (builtin_format : string → spec_float → string).

(** C1. Whenever [compute_sales] returns, its total is the float sum, in
    record order from 0.0, of [catalogue[Product] * Quantity] over exactly
    the records that pass every check (four fields present, Quantity a
    non-negative number, Product a key of the catalogue); the other records
    add nothing: without them the result is the same total and no error. *)
Theorem compute_sales_total (catalogue : gmap pykey json)
    (sales_records : list (gmap string json)) (total : spec_float) (errs : list string) :
  compute_sales builtin_str catalogue sales_records = Ok (total, errs) →
  (∃ costs, Forall2 (λ sale c, line_cost catalogue sale = Ok c)
              (List.filter (passes_checks catalogue) sales_records) costs
            ∧ total = float_sum costs)
  ∧ compute_sales builtin_str catalogue
      (List.filter (passes_checks catalogue) sales_records) = Ok (total, []).
Proof.
  intros (st & Hloop & <- & <-)%compute_sales_Ok. split.
  - destruct (sales_loop_spec builtin_str _ _ _ _ _ Hloop) as (_ & _ & (costs & Hc & Ht) & _).
    exists costs. split; [done|]. by rewrite Ht.
  - apply compute_sales_Ok.
    rewrite (sales_loop_filter builtin_str _ _ _ _ start 1%nat 1%nat Hloop) by done.
    by eexists.
Qed.



(** C4. The count the report shows is the length of the input, and
    whenever [compute_sales] returns, the number of its error strings plus
    the number of records that pass every check (the costed ones) is that
    length: every record is either costed or rejected with one reason. *)
Theorem processed_count (catalogue : gmap pykey json)
    (sales_records : list (gmap string json)) (total : spec_float) (errs : list string) :
  compute_sales builtin_str catalogue sales_records = Ok (total, errs) →
  (length errs + length (List.filter (passes_checks catalogue) sales_records)
   = length sales_records)%nat
  ∧ Forall (λ sale, if passes_checks catalogue sale
                    then rejection builtin_str catalogue sale = Ok None
                    else ∃ reason, rejection builtin_str catalogue sale = Ok (Some reason))
      sales_records
  ∧ ∀ products elapsed_time writes,
      main builtin_str builtin_format products sales_records elapsed_time = Ok writes →
      writes !! 3%nat
      = Some ("Total Sales Processed: " +:+ pretty (length sales_records) +:+ nl).
Proof.
  intros (st & Hloop & <- & <-)%compute_sales_Ok. split; [|split].
  - destruct (sales_loop_spec builtin_str _ _ _ _ _ Hloop) as (He & _ & _ & Hlen).
    by rewrite He.
  - by eapply sales_loop_verdicts.
  - intros products elapsed_time writes. unfold main.
    intros (cat & _ & (r & _ & H)%bind_Ok)%bind_Ok. destruct r as [t e].
    by injection H as <-.
Qed.

(** C5. Whenever [build_price_catalogue] returns, a title that two entries
    with both fields share is mapped to the price of the later one (the
    last entry with that title); an entry that lacks a field is skipped:
    without it the catalogue is the same. *)
Theorem last_write_wins (products : list (gmap string json)) (catalogue : gmap pykey json) :
  build_price_catalogue products = Ok catalogue →
  (∀ l1 earlier l2 later l3 t1 p1 t2 p2 k,
      products = l1 ++ earlier :: l2 ++ later :: l3 →
      earlier !! "title" = Some t1 → earlier !! "price" = Some p1 →
      later !! "title" = Some t2 → later !! "price" = Some p2 →
      to_key t1 = Ok (Some k) → to_key t2 = Ok (Some k) →
      Forall (other_title k) l3 →
      catalogue !! k = Some p2)
  ∧ (∀ l1 product l2,
      products = l1 ++ product :: l2 →
      has_key product "title" && has_key product "price" = false →
      build_price_catalogue (l1 ++ l2) = Ok catalogue).
Proof.
  unfold build_price_catalogue. intros Hbuild. split.
  - intros l1 earlier l2 later l3 t1 p1 t2 p2 k -> _ _ Ht2 Hp2 _ Hk2 Hl3.
    rewrite catalogue_loop_app in Hbuild.
    apply bind_Ok in Hbuild as (c0 & _ & Hloop). simpl in Hloop.
    apply bind_Ok in Hloop as (c0' & _ & Hloop). rewrite catalogue_loop_app in Hloop.
    apply bind_Ok in Hloop as (c1 & _ & Hloop). simpl in Hloop.
    apply bind_Ok in Hloop as (c2 & Hbody & Hloop).
    rewrite (catalogue_loop_other _ _ _ _ Hloop Hl3).
    rewrite (catalogue_body_insert _ _ _ _ Ht2 Hp2) in Hbody.
    unfold setitem in Hbody. rewrite Hk2 in Hbody. injection Hbody as <-.
    apply lookup_insert_eq.
  - intros l1 product l2 -> Hskip.
    rewrite catalogue_loop_app in Hbuild |- *.
    apply bind_Ok in Hbuild as (c1 & Hl1 & Hloop). rewrite Hl1. simpl in *.
    by rewrite (catalogue_body_skip _ _ Hskip) in Hloop.
Qed.

(** C6. Whenever [compute_sales] returns, its error list is, in the order
    of the input, the line "Sale #idx: reason" of every record that is not
    costed, idx being the record's position counted from 1.  A record that
    fails a check adds that one line and leaves the running total as it
    was, and the records after it are processed as if it were not there. *)
Theorem error_report (catalogue : gmap pykey json)
    (sales_records : list (gmap string json)) (total : spec_float) (errs : list string) :
  compute_sales builtin_str catalogue sales_records = Ok (total, errs) →
  errs = error_lines builtin_str catalogue 1 sales_records
  ∧ ∀ before sale after,
      sales_records = before ++ sale :: after →
      passes_checks catalogue sale = false →
      ∃ reason running errs_before errs',
        rejection builtin_str catalogue sale = Ok (Some reason)
        ∧ compute_sales builtin_str catalogue before = Ok (running, errs_before)
        ∧ compute_sales builtin_str catalogue (before ++ [sale])
          = Ok (running,
                errs_before
                ++ ["Sale #" +:+ pretty (S (length before)) +:+ ": " +:+ reason])
        ∧ compute_sales builtin_str catalogue (before ++ after) = Ok (total, errs').
Proof.
  intros (st & Hloop & <- & <-)%compute_sales_Ok. split.
  - by destruct (sales_loop_spec builtin_str _ _ _ _ _ Hloop) as (-> & _).
  - intros before sale after -> Hpass.
    rewrite sales_loop_app in Hloop. apply bind_Ok in Hloop as (st1 & Hbefore & Hloop).
    simpl in Hloop. apply bind_Ok in Hloop as (st2 & Hbody & Hafter).
    destruct (sale_body_rejected _ _ _ _ _ _ Hpass Hbody) as (reason & Hr & ->).
    destruct (sales_loop_total builtin_str _ _ _ _ st1 _ (1 + length before)%nat Hafter)
      as (st' & Hafter' & Ht); [done|].
    exists reason, (total_cost st1), (errors st1), (errors st').
    split; [done|]. split; [|split].
    + apply compute_sales_Ok. eauto.
    + apply compute_sales_Ok. exists (reject st1 (sale_error (1 + length before) reason)).
      split; [|done]. rewrite sales_loop_app, Hbefore. simpl. by rewrite Hbody.
    + apply compute_sales_Ok. exists st'. split; [|done].
      by rewrite sales_loop_app, Hbefore.
Qed.

(** C7. A record that lacks one of the four required fields is invalid,
    and the reason names the first missing field in the order SALE_ID,
    SALE_Date, Product, Quantity. *)
Theorem missing_field_reported (sale : gmap string json) (line_num : nat) :
  (∃ field, field ∈ ["SALE_ID"; "SALE_Date"; "Product"; "Quantity"]
            ∧ sale !! field = None) →
  ∃ before field after,
    ["SALE_ID"; "SALE_Date"; "Product"; "Quantity"] = before ++ field :: after
    ∧ sale !! field = None
    ∧ Forall (λ f, is_Some (sale !! f)) before
    ∧ validate_sale_item builtin_str sale line_num
      = Ok (false, "Missing required field '" +:+ field +:+ "'").
Proof.
  intros (g & Hg & Hnone).
  pose proof (validate_sale_item_spec builtin_str sale line_num) as Hv.
  destruct (missing_field required_fields sale) as [field|] eqn:Hm.
  - apply missing_field_Some in Hm as (before & after & Heq & Hf & Hb).
    exists before, field, after. done.
  - apply missing_field_None in Hm.
    rewrite forallb_forall in Hm. specialize (Hm g).
    rewrite has_key_true, Hnone in Hm. destruct Hm as [? [=]].
    by apply list_elem_of_In.
Qed.

(** C8. What [main] writes to SalesResults.txt is the same for every
    elapsed time except for the Execution Time line: the writes before it
    and after it, and so the text of the file before and after that line,
    depend on the two inputs only (and a run that raises does so whatever
    the elapsed time). *)
Theorem report_deterministic (products sales_records : list (gmap string json)) :
  (∃ e, ∀ elapsed_time,
      main builtin_str builtin_format products sales_records elapsed_time = Raise e)
  ∨ (∃ head tail, ∀ elapsed_time,
      ∃ writes,
        main builtin_str builtin_format products sales_records elapsed_time = Ok writes
        ∧ writes
          = head
            ++ ["Execution Time: " +:+ builtin_format ".4f" elapsed_time
                +:+ " seconds" +:+ nl +:+ nl]
            ++ tail
        ∧ file_content writes
          = file_content head
            +:+ ("Execution Time: " +:+ builtin_format ".4f" elapsed_time
                 +:+ " seconds" +:+ nl +:+ nl)
            +:+ file_content tail).
Proof.
  unfold main.
  destruct (build_price_catalogue products) as [catalogue|e]; simpl; [|by left; exists e].
  destruct (compute_sales builtin_str catalogue sales_records) as [[total errs]|e]; simpl;
    [|by left; exists e].
  right.
  exists (take 5 (save_results builtin_format "SalesResults.txt" total fzero
                    (length sales_records) errs)),
         (drop 6 (save_results builtin_format "SalesResults.txt" total fzero
                    (length sales_records) errs)).
  intros elapsed_time. eexists. split; [reflexivity|]. split; [reflexivity|].
  match goal with
  | |- _ = file_content ?head +:+ ?line +:+ file_content ?tail =>
      change (file_content (head ++ [line] ++ tail)
              = file_content head +:+ line +:+ file_content tail)
  end.
  by rewrite !file_content_app, file_content_singleton.
Qed.


(** C10, as amended. A record with the four fields, a Quantity that is
    exactly zero and a Product whose price in the catalogue is a finite
    number is valid and is costed: it adds a zero to the total, which
    leaves the total as it was, and it produces no error. *)
Theorem zero_quantity_costed (catalogue : gmap pykey json) (sale : gmap string json)
    (q product price : json) (key : pykey) (idx : nat) :
  fields_present sale = true →
  sale !! "Quantity" = Some q → zero_quantity q = true →
  sale !! "Product" = Some product → to_key product = Ok (Some key) →
  catalogue !! key = Some price → finite_price price = true →
  validate_sale_item builtin_str sale idx = Ok (true, EmptyString)
  ∧ passes_checks catalogue sale = true
  ∧ ∃ c, line_cost catalogue sale = Ok c ∧ is_zero c = true
         ∧ (∀ st,
              sale_body builtin_str catalogue st idx sale
              = Ok {| total_cost := fadd (total_cost st) c;
                      errors := errors st; printed := printed st |}
              ∧ (fadd (total_cost st) c = total_cost st
                 ∨ (is_zero (total_cost st) = true
                    ∧ is_zero (fadd (total_cost st) c) = true)))
         ∧ compute_sales builtin_str catalogue [sale] = Ok (fzero, []).
Proof.
  intros Hf Hq Hzero Hp Hk Hprice Hfin.
  assert (quantity_valid q = true) as Hqv.
  { destruct q as [|b|[]|[[]| | |]|s|l|d]; done. }
  assert (passes_checks catalogue sale = true) as Hpass.
  { apply passes_checks_true. split; [done|]. exists q, product.
    repeat split; try done. unfold in_catalogue. rewrite Hk.
    apply bool_decide_eq_true. eauto. }
  split; [apply validate_sale_item_valid; eauto|]. split; [done|].
  destruct (zero_cost price q Hfin Hzero) as (sale_cost & c & Hmul & Hc & Hz).
  assert (line_cost catalogue sale = Ok c) as Hline.
  { unfold line_cost, getitem, lookup_item. rewrite Hp, Hq. simpl. rewrite Hk. simpl.
    rewrite Hprice. simpl. by rewrite Hmul. }
  exists c. split; [done|]. split; [done|]. split.
  - intros st. rewrite sale_body_costed, Hline by done.
    split; [done|]. by apply fadd_zero_r.
  - unfold compute_sales. simpl sales_loop. rewrite sale_body_costed, Hline by done.
    change (Ok (fadd fzero c, @nil string) = Ok (fzero, [])).
    by rewrite fadd_fzero_zero.
Qed.

End Claims.

(** ** Examples *)



Lemma three_sales_run :
  compute_sales str_unused (catalogue_A (JInt 10)) three_sales = Ok (thirty, three_errors).
Proof. vm_compute. reflexivity. Qed.

Lemma compute_sales_total_witness :
  compute_sales str_unused (catalogue_A (JInt 10)) three_sales = Ok (thirty, three_errors)
  ∧ (∃ costs, Forall2 (λ sale c, line_cost (catalogue_A (JInt 10)) sale = Ok c)
                (List.filter (passes_checks (catalogue_A (JInt 10))) three_sales) costs
              ∧ thirty = float_sum costs)
  ∧ compute_sales str_unused (catalogue_A (JInt 10))
      (List.filter (passes_checks (catalogue_A (JInt 10))) three_sales) = Ok (thirty, []).
Proof.
  split; [exact three_sales_run|].
  exact (compute_sales_total str_unused _ _ _ _ three_sales_run).
Defined.

Lemma processed_count_witness :
  compute_sales str_unused (catalogue_A (JInt 10)) three_sales = Ok (thirty, three_errors)
  ∧ (length three_errors
     + length (List.filter (passes_checks (catalogue_A (JInt 10))) three_sales)
     = length three_sales)%nat.
Proof.
  split; [exact three_sales_run|].
  exact (proj1 (processed_count str_unused format_unused _ _ _ _ three_sales_run)).
Defined.

Lemma error_report_witness :
  compute_sales str_unused (catalogue_A (JInt 10)) three_sales = Ok (thirty, three_errors)
  ∧ three_errors = error_lines str_unused (catalogue_A (JInt 10)) 1 three_sales.
Proof.
  split; [exact three_sales_run|].
  exact (proj1 (error_report str_unused _ _ _ _ three_sales_run)).
Defined.

Lemma missing_field_reported_witness :
  (∃ field, field ∈ ["SALE_ID"; "SALE_Date"; "Product"; "Quantity"]
            ∧ delete "Quantity" (sale_of (JStr "A") (JInt 3)) !! field = None)
  ∧ ∃ before field after,
      ["SALE_ID"; "SALE_Date"; "Product"; "Quantity"] = before ++ field :: after
      ∧ delete "Quantity" (sale_of (JStr "A") (JInt 3)) !! field = None
      ∧ Forall (λ f, is_Some (delete "Quantity" (sale_of (JStr "A") (JInt 3)) !! f)) before
      ∧ validate_sale_item str_unused (delete "Quantity" (sale_of (JStr "A") (JInt 3))) 1
        = Ok (false, "Missing required field '" +:+ field +:+ "'").
Proof.
  assert (∃ field, field ∈ ["SALE_ID"; "SALE_Date"; "Product"; "Quantity"]
            ∧ delete "Quantity" (sale_of (JStr "A") (JInt 3)) !! field = None) as H.
  { exists "Quantity". split; [|vm_compute; reflexivity]. repeat constructor. }
  split; [exact H|].
  exact (missing_field_reported str_unused _ 1 H).
Defined.


Lemma last_write_wins_witness :
  build_price_catalogue two_prices = Ok (catalogue_A (JInt 20))
  ∧ catalogue_A (JInt 20) !! KStr "A" = Some (JInt 20)
  ∧ build_price_catalogue
      [product_of (JStr "A") (JInt 10); product_of (JStr "A") (JInt 20)]
    = Ok (catalogue_A (JInt 20)).
Proof.
  assert (build_price_catalogue two_prices = Ok (catalogue_A (JInt 20))) as H.
  { vm_compute. reflexivity. }
  split; [exact H|]. split.
  - refine (proj1 (last_write_wins _ _ H) [] _ [ <["title" := JStr "B"]> ∅ ] _ []
              (JStr "A") (JInt 10) (JStr "A") (JInt 20) (KStr "A") _ _ _ _ _ _ _ _);
      try (vm_compute; reflexivity). constructor.
  - refine (proj2 (last_write_wins _ _ H) [product_of (JStr "A") (JInt 10)]
              (<["title" := JStr "B"]> ∅) [product_of (JStr "A") (JInt 20)] _ _);
      vm_compute; reflexivity.
Defined.


Lemma catalogue_A_prices (z : Z) :
  0 ≤ z →
  ∀ k price, catalogue_A (JInt z) !! k = Some price →
             negative price = false ∧ well_formed price.
Proof.
  intros Hz k price. unfold catalogue_A.
  destruct (decide (k = KStr "A")) as [->|Hne].
  - rewrite lookup_insert_eq. intros [= <-]. split; [|done]. simpl. lia.
  - by rewrite lookup_insert_ne, lookup_empty.
Qed.

Lemma three_sales_well_formed :
  Forall (λ sale : gmap string json, ∀ q, sale !! "Quantity" = Some q → well_formed q)
    three_sales.
Proof.
  repeat constructor; intros q Hq; vm_compute in Hq; by simplify_eq.
Qed.


(** C10 fails as stated: with an infinite price, a zero Quantity makes the
    total NaN. *)
Lemma zero_quantity_nan :
  passes_checks (catalogue_A (JFloat (S754_infinity false)))
    (sale_of (JStr "A") (JInt 0)) = true
  ∧ compute_sales str_unused (catalogue_A (JFloat (S754_infinity false)))
      [sale_of (JStr "A") (JInt 0)] = Ok (S754_nan, []).
Proof. split; vm_compute; reflexivity. Qed.

Lemma zero_quantity_costed_witness :
  fields_present (sale_of (JStr "A") (JInt 0)) = true
  ∧ sale_of (JStr "A") (JInt 0) !! "Quantity" = Some (JInt 0)
  ∧ zero_quantity (JInt 0) = true
  ∧ sale_of (JStr "A") (JInt 0) !! "Product" = Some (JStr "A")
  ∧ to_key (JStr "A") = Ok (Some (KStr "A"))
  ∧ catalogue_A (JInt 10) !! KStr "A" = Some (JInt 10)
  ∧ finite_price (JInt 10) = true
  ∧ validate_sale_item str_unused (sale_of (JStr "A") (JInt 0)) 1 = Ok (true, EmptyString)
  ∧ passes_checks (catalogue_A (JInt 10)) (sale_of (JStr "A") (JInt 0)) = true.
Proof.
  do 7 (split; [vm_compute; reflexivity|]).
  refine (let H := zero_quantity_costed str_unused (catalogue_A (JInt 10))
                     (sale_of (JStr "A") (JInt 0)) (JInt 0) (JStr "A") (JInt 10)
                     (KStr "A") 1 _ _ _ _ _ _ _ in
          conj (proj1 H) (proj1 (proj2 H))); vm_compute; reflexivity.
Defined.

(** ** Further properties of the validation *)

Section Validation.
Context (builtin_str : json → string).

(** What [validate_sale_item] returns for a record that has the four
    fields. *)
Lemma validate_sale_item_quantity (sale : gmap string json) (line_num : nat) (q : json) :
  fields_present sale = true → sale !! "Quantity" = Some q →
  validate_sale_item builtin_str sale line_num
  = if negb (isinstance_int_float q)
    then Ok (false, "Quantity must be a number, got " +:+ type_repr q)
    else if negative q
         then Ok (false, "Quantity cannot be negative (got " +:+ py_str builtin_str q +:+ ")")
         else Ok (true, EmptyString).
Proof.
  intros Hf%missing_field_None Hq. unfold validate_sale_item, check_quantity, getitem.
  rewrite Hf, Hq. simpl. by destruct q as [|b|z|f|s|l|d]; simpl;
    try destruct (z <? 0); try destruct (flt f fzero).
Qed.

(** X1. A record that has the four fields and whose Quantity is not a
    number (null, a string, a list or an object) is invalid, and the reason
    shows the type of the value as the interpreter prints it:
    "Quantity must be a number, got <class 'str'>" for a string. *)
Theorem quantity_not_a_number (sale : gmap string json) (line_num : nat) (q : json) :
  fields_present sale = true →
  sale !! "Quantity" = Some q →
  isinstance_int_float q = false →
  validate_sale_item builtin_str sale line_num
  = Ok (false, "Quantity must be a number, got <class '" +:+ type_name q +:+ "'>").
Proof.
  intros Hf Hq Hn. by rewrite (validate_sale_item_quantity _ _ q), Hn.
Qed.



Lemma same_reading_missing (s1 s2 : gmap string json) (fields : list string) :
  Forall (λ f, has_key s1 f = has_key s2 f) fields →
  missing_field fields s1 = missing_field fields s2.
Proof.
  induction 1 as [|f fields Hf _ IH]; simpl; [done|]. by rewrite Hf, IH.
Qed.

Lemma same_reading_validate (s1 s2 : gmap string json) (n1 n2 : nat) :
  same_reading s1 s2 →
  validate_sale_item builtin_str s1 n1 = validate_sale_item builtin_str s2 n2.
Proof.
  intros (Hf & Hq & _). unfold validate_sale_item, check_quantity, getitem.
  by rewrite (same_reading_missing s1 s2 _ Hf), Hq.
Qed.

Lemma same_reading_body (catalogue : gmap pykey json) (st : tally) (idx : nat)
    (s1 s2 : gmap string json) :
  same_reading s1 s2 →
  sale_body builtin_str catalogue st idx s1 = sale_body builtin_str catalogue st idx s2.
Proof.
  intros H. unfold sale_body. rewrite (same_reading_validate s1 s2 idx idx H).
  destruct H as (_ & Hq & Hp). unfold getitem. by rewrite Hq, Hp.
Qed.

Lemma same_reading_loop (catalogue : gmap pykey json) (l1 l2 : list (gmap string json)) :
  Forall2 same_reading l1 l2 →
  ∀ st idx, sales_loop builtin_str catalogue st idx l1
            = sales_loop builtin_str catalogue st idx l2.
Proof.
  induction 1 as [|s1 s2 l1 l2 Hs _ IH]; intros st idx; simpl; [done|].
  rewrite (same_reading_body _ _ _ s1 s2 Hs).
  destruct (sale_body builtin_str catalogue st idx s2); simpl; [apply IH|done].
Qed.

(** X4. [compute_sales] reads of a record only which of the four required
    fields are present and the values of Quantity and Product: two lists
    of records that agree on these, record by record, give the same result
    (the same total and errors, or the same exception).  The values of
    SALE_ID and SALE_Date and every other field are ignored. *)
Theorem other_fields_ignored (catalogue : gmap pykey json)
    (l1 l2 : list (gmap string json)) :
  Forall2 same_reading l1 l2 →
  compute_sales builtin_str catalogue l1 = compute_sales builtin_str catalogue l2.
Proof.
  intros H. unfold compute_sales. by rewrite (same_reading_loop catalogue l1 l2 H).
Qed.

Lemma same_price_body (c1 c2 : gmap pykey json) (st : tally) (idx : nat)
    (sale : gmap string json) :
  same_price c1 c2 sale →
  sale_body builtin_str c1 st idx sale = sale_body builtin_str c2 st idx sale.
Proof.
  intros H. unfold sale_body.
  destruct (validate_sale_item builtin_str sale idx) as [[[] msg]|e]; simpl; try done.
  unfold getitem. destruct (sale !! "Product") as [p|] eqn:Hp; simpl; [|done].
  destruct (sale !! "Quantity") as [q|]; simpl; [|done].
  unfold contains, lookup_item.
  destruct (to_key p) as [[k|]|e] eqn:Hk; simpl; try done.
  by rewrite (H p k).
Qed.

Lemma same_price_loop (c1 c2 : gmap pykey json) (sales_records : list (gmap string json)) :
  Forall (same_price c1 c2) sales_records →
  ∀ st idx, sales_loop builtin_str c1 st idx sales_records
            = sales_loop builtin_str c2 st idx sales_records.
Proof.
  induction 1 as [|sale rest Hs _ IH]; intros st idx; simpl; [done|].
  rewrite (same_price_body c1 c2 _ _ _ Hs).
  destruct (sale_body builtin_str c2 st idx sale); simpl; [apply IH|done].
Qed.

(** X5. [compute_sales] reads of the catalogue only the entries of the
    Products of the records: two catalogues that agree on them give the
    same result, so that products that no record names can be added to the
    catalogue or removed from it. *)
Theorem other_products_ignored (c1 c2 : gmap pykey json)
    (sales_records : list (gmap string json)) :
  Forall (same_price c1 c2) sales_records →
  compute_sales builtin_str c1 sales_records = compute_sales builtin_str c2 sales_records.
Proof.
  intros H. unfold compute_sales. by rewrite (same_price_loop c1 c2 _ H).
Qed.

End Validation.

(** ** Further properties of the loop *)

Section Loop.
Context (builtin_str : json → string).

(** A record that passes validation: what the loop body does next. *)
Lemma sale_body_valid (catalogue : gmap pykey json) (st : tally) (idx : nat)
    (sale : gmap string json) (q p : json) :
  fields_present sale = true →
  sale !! "Quantity" = Some q → quantity_valid q = true →
  sale !! "Product" = Some p →
  sale_body builtin_str catalogue st idx sale
  = found ← contains catalogue p;
    if negb found then
      Ok (reject st (sale_error idx ("Product '" +:+ py_str builtin_str p
                                     +:+ "' not found in catalogue")))
    else
      price ← lookup_item catalogue p;
      sale_cost ← py_mul price q;
      total ← float_add (total_cost st) sale_cost;
      Ok {| total_cost := total; errors := errors st; printed := printed st |}.
Proof.
  intros Hf Hq Hqv Hp.
  assert (validate_sale_item builtin_str sale idx = Ok (true, EmptyString)) as Hv.
  { apply validate_sale_item_valid. eauto 10. }
  unfold sale_body, getitem. by rewrite Hv, Hp, Hq.
Qed.


(** A record on which the loop body raises, after records on which it
    does not. *)
Lemma sales_loop_raise (catalogue : gmap pykey json) (e : exn)
    (before : list (gmap string json)) (sale : gmap string json)
    (after : list (gmap string json)) :
  (∀ st idx, sale_body builtin_str catalogue st idx sale = Raise e) →
  forallb (record_safe catalogue) before = true →
  compute_sales builtin_str catalogue (before ++ sale :: after) = Raise e.
Proof.
  intros Hbody Hsafe. unfold compute_sales. rewrite sales_loop_app.
  rewrite <- (sales_loop_returns builtin_str catalogue before start 1) in Hsafe.
  apply returns_Ok in Hsafe as [st1 ->]. simpl. by rewrite Hbody.
Qed.

(** X7. A valid record whose Product is a list or an object makes
    [compute_sales] raise TypeError "unhashable type: 'list'" (or 'dict')
    at the membership test, whatever the catalogue and the records after
    it: the records before it being safe, no total and no error list is
    returned. *)
Theorem unhashable_product (catalogue : gmap pykey json) (sale : gmap string json)
    (q p : json) :
  fields_present sale = true →
  sale !! "Quantity" = Some q → quantity_valid q = true →
  sale !! "Product" = Some p → is_container p = true →
  ∀ before after,
    forallb (record_safe catalogue) before = true →
    compute_sales builtin_str catalogue (before ++ sale :: after)
    = Raise (TypeError ("unhashable type: '" +:+ type_name p +:+ "'")).
Proof.
  intros Hf Hq Hqv Hp Hc before after. apply sales_loop_raise.
  intros st idx. rewrite (sale_body_valid _ _ _ _ q p) by done.
  by destruct p.
Qed.

(** The operands are numbers, and an integer is too large for a float. *)
Lemma overflow (price q : json) (t : spec_float) :
  isinstance_int_float price = true → isinstance_int_float q = true →
  costable price q = false →
  (sale_cost ← py_mul price q; float_add t sale_cost)
  = Raise (OverflowError "int too large to convert to float").
Proof.
  intros Hp Hq. unfold costable, py_mul.
  destruct (as_number price) as [[x|f]|] eqn:Hnp; [| |by destruct price];
    (destruct (as_number q) as [[y|g]|] eqn:Hnq; [| |by destruct q]);
    unfold num_mul, float_add, to_float; simpl; try done; intros Hc; rewrite ?Hc; simpl;
    try done.
Qed.

(** X8. A valid record whose Product has a numeric price raises
    OverflowError "int too large to convert to float" when an integer
    that has to become a float is beyond the range of floats: the price or
    the Quantity when the other one is a float, their product when both
    are integers. *)
Theorem integer_too_large (catalogue : gmap pykey json) (sale : gmap string json)
    (q p price : json) (k : pykey) :
  fields_present sale = true →
  sale !! "Quantity" = Some q → quantity_valid q = true →
  sale !! "Product" = Some p → to_key p = Ok (Some k) →
  catalogue !! k = Some price → isinstance_int_float price = true →
  costable price q = false →
  ∀ before after,
    forallb (record_safe catalogue) before = true →
    compute_sales builtin_str catalogue (before ++ sale :: after)
    = Raise (OverflowError "int too large to convert to float").
Proof.
  intros Hf Hq Hqv Hp Hk Hprice Hnum Hc before after. apply sales_loop_raise.
  intros st idx. rewrite (sale_body_valid _ _ _ _ q p) by done.
  unfold contains, lookup_item. rewrite Hk. simpl. rewrite Hprice. simpl.
  unfold quantity_valid in Hqv. apply andb_true_iff in Hqv as [Hqn _].
  pose proof (overflow price q (total_cost st) Hnum Hqn Hc) as Ho.
  destruct (py_mul price q) as [c|e].
  - change (float_add (total_cost st) c
            = Raise (OverflowError "int too large to convert to float")) in Ho.
    change (Ok c ≫= ?k) with (k c). cbv beta. by rewrite Ho.
  - by injection Ho as ->.
Qed.

Lemma to_float_raise (n : number) (e : exn) :
  to_float n = Raise e → type_or_overflow e.
Proof.
  destruct n as [z|f]; simpl; [|done]. destruct (fits_float z); [done|]. by intros [= <-].
Qed.

Lemma py_mul_raise (a b : json) (e : exn) : py_mul a b = Raise e → type_or_overflow e.
Proof.
  unfold py_mul, num_mul.
  destruct (as_number a) as [[x|f]|], (as_number b) as [[y|g]|]; simpl; try done;
    repeat match goal with
           | |- context [fits_float ?z] => destruct (fits_float z); simpl
           | |- context [seq_repeat ?v ?n] => destruct (seq_repeat v n); simpl
           end; try done; by intros [= <-].
Qed.

Lemma float_add_raise (t : spec_float) (v : json) (e : exn) :
  float_add t v = Raise e → type_or_overflow e.
Proof.
  unfold float_add. destruct (as_number v) as [n|]; [|by intros [= <-]].
  destruct (to_float n) as [f|e'] eqn:Hf; simpl; [done|]. intros [= <-].
  by eapply to_float_raise.
Qed.

Lemma sale_body_raise (catalogue : gmap pykey json) (st : tally) (idx : nat)
    (sale : gmap string json) (e : exn) :
  sale_body builtin_str catalogue st idx sale = Raise e → type_or_overflow e.
Proof.
  unfold sale_body.
  destruct (validate_sale_item_returns builtin_str sale idx) as (b & msg & Hv).
  rewrite Hv. simpl. destruct b; simpl; [|done].
  apply validate_sale_item_valid in Hv as (Hf & (q & Hq & Hqv) & ->).
  destruct (fields_present_lookup sale Hf) as (q' & p & Hq' & Hp). simplify_eq.
  unfold getitem, contains, lookup_item. rewrite Hp, Hq. simpl.
  destruct (to_key p) as [key|e'] eqn:Hk; simpl.
  - destruct (key ≫= (catalogue !!.)) as [price|]; simpl; [|done].
    destruct (py_mul price q) as [c|e'] eqn:Hmul; simpl.
    + destruct (float_add (total_cost st) c) as [t|e'] eqn:Hadd; simpl; [done|].
      intros [= <-]. by eapply float_add_raise.
    + intros [= <-]. by eapply py_mul_raise.
  - intros [= <-]. destruct p as [| | |[]| | |]; simplify_eq/=; done.
Qed.

(** A loop that raises does so at one record, after a loop that returns. *)
Lemma sales_loop_raise_inv (catalogue : gmap pykey json)
    (sales_records : list (gmap string json)) (e : exn) :
  ∀ st idx,
  sales_loop builtin_str catalogue st idx sales_records = Raise e →
  ∃ before sale after st1,
    sales_records = before ++ sale :: after
    ∧ sales_loop builtin_str catalogue st idx before = Ok st1
    ∧ sale_body builtin_str catalogue st1 (idx + length before) sale = Raise e.
Proof.
  induction sales_records as [|sale rest IH]; intros st idx; simpl; [done|].
  destruct (sale_body builtin_str catalogue st idx sale) as [st1|e'] eqn:Hbody; simpl.
  - intros (before & s & after & st2 & -> & Hloop & Hraise)%IH.
    exists (sale :: before), s, after, st2. split; [done|]. simpl. rewrite Hbody. simpl.
    split; [done|]. by rewrite <- Nat.add_succ_comm.
  - intros [= <-]. exists [], sale, rest, st. by rewrite Nat.add_0_r.
Qed.


(** X10. What the loop of [compute_sales] prints is one line for each error
    it returns, in the same order: the error after "WARNING: "; the total
    and the errors of the loop are what [compute_sales] returns. *)
Theorem warnings_printed (catalogue : gmap pykey json)
    (sales_records : list (gmap string json)) (st : tally) :
  sales_loop builtin_str catalogue start 1 sales_records = Ok st →
  compute_sales builtin_str catalogue sales_records = Ok (total_cost st, errors st)
  ∧ printed st = map (λ error, "WARNING: " +:+ error) (errors st).
Proof.
  intros Hloop. split; [by apply compute_sales_Ok; eauto|].
  by destruct (sales_loop_spec builtin_str _ _ _ _ _ Hloop) as (-> & -> & _).
Qed.

(** X11. [compute_sales] is one pass from left to right: whenever it
    returns on a list, it returns on every prefix of it, and the result on
    the list extends the result on the prefix: the errors by the error
    lines of the remaining records, numbered from their positions in the
    list, the total by the costs of the remaining costed records, added in
    order. *)
Theorem single_pass (catalogue : gmap pykey json) (l1 l2 : list (gmap string json))
    (total : spec_float) (errs : list string) :
  compute_sales builtin_str catalogue (l1 ++ l2) = Ok (total, errs) →
  ∃ total1 errs1 costs,
    compute_sales builtin_str catalogue l1 = Ok (total1, errs1)
    ∧ errs = errs1 ++ error_lines builtin_str catalogue (1 + length l1) l2
    ∧ Forall2 (λ sale c, line_cost catalogue sale = Ok c)
        (List.filter (passes_checks catalogue) l2) costs
    ∧ total = foldl fadd total1 costs.
Proof.
  intros (st & Hloop & <- & <-)%compute_sales_Ok.
  rewrite sales_loop_app in Hloop. apply bind_Ok in Hloop as (st1 & H1 & H2).
  destruct (sales_loop_spec builtin_str _ _ _ _ _ H2) as (He & _ & (costs & Hc & Ht) & _).
  exists (total_cost st1), (errors st1), costs.
  split; [apply compute_sales_Ok; eauto|]. done.
Qed.

(** X12. An exception ends the run: when [compute_sales] raises on a list
    of records it raises the same exception on every list that starts with
    it, so that the total and the errors collected before the exception
    are never returned. *)
Theorem fail_fast (catalogue : gmap pykey json) (l1 l2 : list (gmap string json))
    (e : exn) :
  compute_sales builtin_str catalogue l1 = Raise e →
  compute_sales builtin_str catalogue (l1 ++ l2) = Raise e.
Proof.
  unfold compute_sales. rewrite sales_loop_app.
  by destruct (sales_loop builtin_str catalogue start 1 l1).
Qed.

End Loop.

(** ** Not a number *)

Lemma fadd_nan_r (t : spec_float) : fadd t S754_nan = S754_nan.
Proof. by destruct t. Qed.

Lemma fmul_nan_r (f : spec_float) : fmul f S754_nan = S754_nan.
Proof. by destruct f. Qed.

Lemma foldl_fadd_nan (costs : list spec_float) : foldl fadd S754_nan costs = S754_nan.
Proof. induction costs as [|c costs IH]; simpl; [done|exact IH]. Qed.

Lemma nan_cost (price : json) (c : spec_float) :
  (sale_cost ← py_mul price (JFloat S754_nan);
   match as_number sale_cost with
   | Some n => to_float n
   | None => Raise (bad_operands "+=" (JFloat fzero) sale_cost)
   end) = Ok c →
  c = S754_nan.
Proof.
  unfold py_mul, num_mul. simpl.
  destruct (as_number price) as [[x|f]|]; simpl.
  - destruct (fits_float x); simpl; [|done]. intros [= <-]. apply fmul_nan_r.
  - intros [= <-]. apply fmul_nan_r.
  - by destruct (seq_repeat price 0).
Qed.

Section Nan.
Context (builtin_str : json → string).

(** X13. A Quantity that is NaN (which [json.load] accepts) passes
    validation, since NaN is a float and is not below zero; when the
    Product of such a record is in the catalogue and [compute_sales]
    returns, the total is NaN, whatever the other records are. *)
Theorem nan_quantity (catalogue : gmap pykey json) (before : list (gmap string json))
    (sale : gmap string json) (after : list (gmap string json)) (p : json) (k : pykey)
    (price : json) (total : spec_float) (errs : list string) :
  fields_present sale = true →
  sale !! "Quantity" = Some (JFloat S754_nan) →
  sale !! "Product" = Some p → to_key p = Ok (Some k) →
  catalogue !! k = Some price →
  compute_sales builtin_str catalogue (before ++ sale :: after) = Ok (total, errs) →
  validate_sale_item builtin_str sale (S (length before)) = Ok (true, EmptyString)
  ∧ total = S754_nan.
Proof.
  intros Hf Hq Hp Hk Hprice (st & Hloop & <- & <-)%compute_sales_Ok.
  assert (passes_checks catalogue sale = true) as Hpass.
  { apply passes_checks_true. split; [done|]. exists (JFloat S754_nan), p.
    repeat split; try done. unfold in_catalogue. rewrite Hk.
    apply bool_decide_eq_true. eauto. }
  split; [apply validate_sale_item_valid; eauto|].
  rewrite sales_loop_app in Hloop. apply bind_Ok in Hloop as (st1 & Hbefore & Hloop).
  simpl in Hloop. apply bind_Ok in Hloop as (st2 & Hbody & Hafter).
  rewrite sale_body_costed in Hbody by done.
  apply bind_Ok in Hbody as (c & Hc & [= <-]).
  unfold line_cost, getitem, lookup_item in Hc. rewrite Hp, Hq in Hc. simpl in Hc.
  rewrite Hk in Hc. simpl in Hc. rewrite Hprice in Hc.
  apply nan_cost in Hc as ->.
  destruct (sales_loop_spec builtin_str _ _ _ _ _ Hafter) as (_ & _ & (costs & _ & Ht) & _).
  rewrite Ht. simpl. by rewrite fadd_nan_r, foldl_fadd_nan.
Qed.

End Nan.

(** ** Integers are added exactly *)

Lemma shr_1_even (k : Z) :
  0 ≤ k →
  shr_1 {| shr_m := 2 * k; shr_r := false; shr_s := false |}
  = {| shr_m := k; shr_r := false; shr_s := false |}.
Proof. destruct k as [|p|p]; [done|done|lia]. Qed.

(** Shifting out zeros loses nothing. *)
Lemma iter_shr_1_exact (n : positive) :
  ∀ m, 0 ≤ m →
  SpecFloat.iter_pos shr_1 n {| shr_m := m * 2 ^ Z.pos n; shr_r := false; shr_s := false |}
  = {| shr_m := m; shr_r := false; shr_s := false |}.
Proof.
  induction n as [n IH|n IH|]; intros m Hm; cbn [SpecFloat.iter_pos].
  - replace (m * 2 ^ Z.pos n~1) with (2 * (m * 2 ^ Z.pos n * 2 ^ Z.pos n)).
    + pose proof (pow2_pos (Z.pos n)).
      rewrite shr_1_even, IH, IH by nia. done.
    + replace (Z.pos n~1) with (1 + Z.pos n + Z.pos n) by lia.
      rewrite !Z.pow_add_r by lia. rewrite Z.pow_1_r. ring.
  - replace (m * 2 ^ Z.pos n~0) with (m * 2 ^ Z.pos n * 2 ^ Z.pos n).
    + pose proof (pow2_pos (Z.pos n)). rewrite IH, IH by nia. done.
    + replace (Z.pos n~0) with (Z.pos n + Z.pos n) by lia.
      rewrite !Z.pow_add_r by lia. ring.
  - replace (m * 2 ^ 1) with (2 * m) by lia. by apply shr_1_even.
Qed.

Lemma shr_exact (m e n : Z) :
  0 ≤ m → 0 ≤ n →
  shr {| shr_m := m * 2 ^ n; shr_r := false; shr_s := false |} e n
  = ({| shr_m := m; shr_r := false; shr_s := false |}, e + n).
Proof.
  intros Hm Hn. destruct n as [|p|p]; simpl; [|by rewrite iter_shr_1_exact|lia].
  by rewrite Z.mul_1_r, Z.add_0_r.
Qed.

(** A mantissa that ends in the zeros the format drops is rounded to
    itself. *)
Lemma binary_round_aux_exact (sx : bool) (m n e : Z) :
  0 < m → 0 ≤ n →
  fexp prec emax (Zdigits2 m + (e + n)) = e + n → e + n ≤ 971 →
  binary_round_aux prec emax sx (m * 2 ^ n) e loc_Exact
  = S754_finite sx (Z.to_pos m) (e + n).
Proof.
  intros Hm Hn Hfexp He. unfold binary_round_aux, shr_fexp.
  rewrite Zdigits2_shiftl by done.
  replace (Zdigits2 m + n + e) with (Zdigits2 m + (e + n)) by lia.
  rewrite Hfexp. replace (e + n - e) with n by lia.
  change (shr_record_of_loc (m * 2 ^ n) loc_Exact)
    with {| shr_m := m * 2 ^ n; shr_r := false; shr_s := false |}.
  rewrite shr_exact by lia. simpl.
  rewrite Hfexp, Z.sub_diag. simpl.
  destruct m as [|p|p]; [lia| |lia]. simpl.
  assert ((e + n <=? emax - prec) = true) as -> by (apply Z.leb_le; done). done.
Qed.

Lemma Zdigits2_below (z : Z) : 0 < z < 2 ^ 53 → 1 ≤ Zdigits2 z ≤ 53.
Proof.
  intros Hz. pose proof (Zdigits2_pos z ltac:(lia)).
  pose proof (Zdigits2_bounds z ltac:(lia)) as [Hlo _].
  destruct (Z_le_gt_dec (Zdigits2 z) 53) as [|Hgt]; [lia|].
  assert (2 ^ 53 ≤ 2 ^ (Zdigits2 z - 1)) by (apply Z.pow_le_mono_r; lia). lia.
Qed.

(** The binary64 value of an integer mantissa at an exponent that is not
    positive, when the value is an integer [z] below 2^53. *)
Lemma binary_round_exact (M : positive) (E z : Z) :
  0 < z < 2 ^ 53 → E ≤ 0 → Z.pos M = z * 2 ^ (- E) →
  binary_round prec emax false M E
  = S754_finite false (Z.to_pos (z * 2 ^ (53 - Zdigits2 z))) (Zdigits2 z - 53).
Proof.
  intros Hz HE HM. unfold binary_round.
  destruct (shl_align_spec M E (fexp prec emax (Z.pos (digits2_pos M) + E))) as [Hmz Hez].
  destruct (shl_align M E _) as [mz ez]. simpl in Hmz, Hez.
  pose proof (Zdigits2_below z Hz) as Hd.
  assert (Z.pos (digits2_pos M) + E = Zdigits2 z) as HdM.
  { change (Z.pos (digits2_pos M)) with (Zdigits2 (Z.pos M)).
    rewrite HM, Zdigits2_shiftl by lia. lia. }
  rewrite HdM, fexp_eq in Hez.
  set (d := Zdigits2 z) in *.
  assert (Z.pos mz = z * 2 ^ (53 - d) * 2 ^ (d - 53 - ez)) as ->.
  { rewrite Hmz, HM, <- !Z.mul_assoc, <- !Z.pow_add_r by lia. do 2 f_equal. lia. }
  pose proof (pow2_pos (53 - d) ltac:(lia)).
  rewrite (binary_round_aux_exact false (z * 2 ^ (53 - d)) (d - 53 - ez) ez); try lia.
  - do 2 f_equal. lia.
  - rewrite Zdigits2_shiftl by lia. rewrite fexp_eq. fold d. lia.
Qed.

Lemma float_of_Z_exact (z : Z) :
  0 < z < 2 ^ 53 →
  float_of_Z z
  = S754_finite false (Z.to_pos (z * 2 ^ (53 - Zdigits2 z))) (Zdigits2 z - 53).
Proof.
  intros Hz. unfold float_of_Z. destruct z as [|p|p]; [lia| |lia]. simpl binary_normalize.
  apply binary_round_exact; [done|lia|]. simpl. lia.
Qed.

(** Integers below 2^53 are added without rounding. *)
Lemma fadd_float_of_Z (a b : Z) :
  0 ≤ a → 0 ≤ b → a + b < 2 ^ 53 →
  fadd (float_of_Z a) (float_of_Z b) = float_of_Z (a + b).
Proof.
  intros Ha Hb Hab.
  destruct (Z.eq_dec a 0) as [->|Hna].
  { rewrite Z.add_0_l. destruct (Z.eq_dec b 0) as [->|Hnb]; [done|].
    rewrite (float_of_Z_exact b) by lia. done. }
  destruct (Z.eq_dec b 0) as [->|Hnb].
  { rewrite Z.add_0_r. rewrite (float_of_Z_exact a) by lia. done. }
  rewrite (float_of_Z_exact a), (float_of_Z_exact b), (float_of_Z_exact (a + b)) by lia.
  rewrite fadd_finite_nonneg.
  pose proof (Zdigits2_below a ltac:(lia)) as Hda.
  pose proof (Zdigits2_below b ltac:(lia)) as Hdb.
  set (da := Zdigits2 a) in *. set (db := Zdigits2 b) in *.
  pose proof (pow2_pos (53 - da) ltac:(lia)). pose proof (pow2_pos (53 - db) ltac:(lia)).
  set (E := Z.min (da - 53) (db - 53)).
  destruct (shl_align_spec (Z.to_pos (a * 2 ^ (53 - da))) (da - 53) E) as [Hma Hea].
  destruct (shl_align_spec (Z.to_pos (b * 2 ^ (53 - db))) (db - 53) E) as [Hmb Heb].
  destruct (shl_align (Z.to_pos (a * 2 ^ (53 - da))) (da - 53) E) as [ma ea].
  destruct (shl_align (Z.to_pos (b * 2 ^ (53 - db))) (db - 53) E) as [mb eb].
  simpl in *. rewrite Z2Pos.id in Hma, Hmb by nia.
  apply binary_round_exact; [lia|lia|].
  rewrite Pos2Z.inj_add, Hma, Hmb, Hea, Heb.
  replace (Z.min (da - 53) E) with E by lia. replace (Z.min (db - 53) E) with E by lia.
  rewrite <- !Z.mul_assoc, <- !Z.pow_add_r by lia.
  replace (53 - da + (da - 53 - E)) with (- E) by lia.
  replace (53 - db + (db - 53 - E)) with (- E) by lia. ring.
Qed.

Lemma fits_float_small (z : Z) : 0 ≤ z < 2 ^ 53 → fits_float z = true.
Proof.
  intros Hz. unfold fits_float. destruct (Z.eq_dec z 0) as [->|Hne]; [done|].
  by rewrite float_of_Z_exact by lia.
Qed.

Lemma foldr_add_nonneg (zs : list Z) : Forall (λ z, 0 ≤ z) zs → 0 ≤ foldr Z.add 0 zs.
Proof. induction 1; simpl; lia. Qed.

Lemma foldl_fadd_exact (zs : list Z) :
  ∀ acc, 0 ≤ acc → Forall (λ z, 0 ≤ z) zs → acc + foldr Z.add 0 zs < 2 ^ 53 →
  foldl fadd (float_of_Z acc) (map float_of_Z zs) = float_of_Z (acc + foldr Z.add 0 zs).
Proof.
  induction zs as [|z zs IH]; intros acc Hacc Hzs Hsum; simpl in *.
  - by rewrite Z.add_0_r.
  - apply Forall_cons in Hzs as [Hz Hzs]. pose proof (foldr_add_nonneg zs Hzs).
    rewrite fadd_float_of_Z by lia. rewrite IH by (try done; lia). f_equal. lia.
Qed.

Lemma line_cost_int (catalogue : gmap pykey json) (sale : gmap string json) (z : Z) :
  int_cost catalogue sale = Some z → 0 ≤ z < 2 ^ 53 →
  line_cost catalogue sale = Ok (float_of_Z z).
Proof.
  unfold int_cost, line_cost, getitem, lookup_item.
  destruct (sale !! "Product") as [p|]; [|done].
  destruct (sale !! "Quantity") as [q|]; [|done]. simpl.
  destruct (to_key p) as [[k|]|e]; try done. simpl.
  destruct (catalogue !! k) as [price|]; [|done]. simpl. unfold py_mul.
  destruct (as_number price) as [[x|f]|]; try done.
  destruct (as_number q) as [[y|g]|]; try done.
  intros [= <-] Hz. simpl. by rewrite fits_float_small.
Qed.

Lemma costs_exact (catalogue : gmap pykey json) (l : list (gmap string json))
    (costs : list spec_float) :
  Forall (λ sale, ∃ z, int_cost catalogue sale = Some z ∧ 0 ≤ z) l →
  foldr Z.add 0 (omap (int_cost catalogue) l) < 2 ^ 53 →
  Forall2 (λ sale c, line_cost catalogue sale = Ok c) l costs →
  costs = map float_of_Z (omap (int_cost catalogue) l)
  ∧ Forall (λ z, 0 ≤ z) (omap (int_cost catalogue) l).
Proof.
  intros Hint Hsum Hcosts. revert Hint Hsum.
  induction Hcosts as [|sale c l costs Hc _ IH]; simpl; [done|].
  intros [(z & Hz & Hpos) Hint]%Forall_cons. rewrite Hz. simpl. intros Hsum.
  assert (Forall (λ z0 : Z, 0 ≤ z0) (omap (int_cost catalogue) l)) as Hnn.
  { apply Forall_forall. intros z' (s & Hs & Hz')%list_elem_of_omap.
    rewrite Forall_forall in Hint. destruct (Hint s Hs) as (z'' & ? & ?). by simplify_eq. }
  pose proof (foldr_add_nonneg _ Hnn).
  change (list_omap _ _ (int_cost catalogue) l) with (omap (int_cost catalogue) l) in *.
  destruct IH as [-> _]; [done|lia|].
  rewrite (line_cost_int _ _ z) in Hc by (try done; lia). injection Hc as <-.
  split; [done|by constructor].
Qed.

Lemma exact_total_cons (catalogue : gmap pykey json) (sale : gmap string json)
    (rest : list (gmap string json)) :
  exact_total catalogue (sale :: rest)
  = (if passes_checks catalogue sale then default 0 (int_cost catalogue sale) else 0)
    + exact_total catalogue rest.
Proof.
  unfold exact_total. simpl. destruct (passes_checks catalogue sale); [|done]. simpl.
  by destruct (int_cost catalogue sale).
Qed.

Lemma exact_total_perm (catalogue : gmap pykey json) (l1 l2 : list (gmap string json)) :
  l1 ≡ₚ l2 → exact_total catalogue l1 = exact_total catalogue l2.
Proof.
  induction 1 as [|x l l' _ IH|x y l|l l' l'' _ IH1 _ IH2];
    rewrite ?exact_total_cons; [done|lia|lia|congruence].
Qed.

Lemma forallb_perm {A} (f : A → bool) (l1 l2 : list A) :
  l1 ≡ₚ l2 → forallb f l1 = true → forallb f l2 = true.
Proof.
  intros Hperm. rewrite !forallb_forall. intros H x Hx. apply H.
  apply list_elem_of_In. rewrite Hperm. by apply list_elem_of_In.
Qed.

Section Integers.
Context (builtin_str : json → string).

Lemma compute_sales_integer (catalogue : gmap pykey json)
    (sales_records : list (gmap string json)) (total : spec_float) (errs : list string) :
  Forall (integer_cost catalogue) sales_records →
  exact_total catalogue sales_records < 2 ^ 53 →
  compute_sales builtin_str catalogue sales_records = Ok (total, errs) →
  total = float_of_Z (exact_total catalogue sales_records).
Proof.
  intros Hint Hsum (st & Hloop & <- & _)%compute_sales_Ok.
  destruct (sales_loop_spec builtin_str _ _ _ _ _ Hloop) as (_ & _ & (costs & Hc & ->) & _).
  destruct (costs_exact catalogue (List.filter (passes_checks catalogue) sales_records) costs)
    as [-> Hnn]; [|done|done|].
  - clear -Hint. induction Hint as [|sale l Hs _ IH]; simpl; [done|].
    destruct (passes_checks catalogue sale) eqn:Hp; [|done]. constructor; [by apply Hs|done].
  - change (total_cost start) with (float_of_Z 0).
    by rewrite foldl_fadd_exact.
Qed.

(** X14. When the price and the Quantity of every costed record are
    integers (or booleans) whose product is not negative, and the sum of
    these products is below 2^53, the total that [compute_sales] returns
    is exactly that sum, as a float: no rounding occurs.  The records that
    are not costed add nothing to it. *)
Theorem integer_total_exact (catalogue : gmap pykey json)
    (sales_records : list (gmap string json)) (total : spec_float) (errs : list string) :
  Forall (integer_cost catalogue) sales_records →
  exact_total catalogue sales_records < 2 ^ 53 →
  compute_sales builtin_str catalogue sales_records = Ok (total, errs) →
  total = float_of_Z (exact_total catalogue sales_records)
  ∧ compute_sales builtin_str catalogue
      (List.filter (passes_checks catalogue) sales_records)
    = Ok (float_of_Z (exact_total catalogue sales_records), []).
Proof.
  intros Hint Hsum Hrun.
  pose proof (compute_sales_integer _ _ _ _ Hint Hsum Hrun) as <-. split; [done|].
  apply compute_sales_Ok in Hrun as (st & Hloop & <- & _).
  apply compute_sales_Ok.
  rewrite (sales_loop_filter builtin_str _ _ _ _ start 1%nat 1%nat Hloop) by done.
  by eexists.
Qed.

(** X15. Under the same conditions the total does not depend on the order
    of the records: [compute_sales] returns on every rearrangement of the
    list, with the same total (the errors, which carry the positions,
    differ). *)
Theorem integer_total_order (catalogue : gmap pykey json)
    (l1 l2 : list (gmap string json)) (total : spec_float) (errs : list string) :
  l1 ≡ₚ l2 →
  Forall (integer_cost catalogue) l1 →
  exact_total catalogue l1 < 2 ^ 53 →
  compute_sales builtin_str catalogue l1 = Ok (total, errs) →
  ∃ errs2, compute_sales builtin_str catalogue l2 = Ok (total, errs2).
Proof.
  intros Hperm Hint Hsum Hrun.
  assert (forallb (record_safe catalogue) l2 = true) as Hsafe.
  { apply (forallb_perm _ l1); [done|].
    apply (compute_sales_returns builtin_str). eauto. }
  apply (compute_sales_returns builtin_str) in Hsafe as (t2 & e2 & Hrun2).
  exists e2. rewrite Hrun2. do 2 f_equal.
  rewrite (compute_sales_integer _ _ _ _ Hint Hsum Hrun).
  rewrite (exact_total_perm _ _ _ Hperm) in Hsum |- *.
  apply (compute_sales_integer _ l2 _ e2); [by rewrite <- Hperm|done|done].
Qed.

End Integers.

(** ** Further properties of the catalogue *)

Lemma catalogue_body_lookup (catalogue catalogue' : gmap pykey json)
    (product : gmap string json) (k : pykey) :
  catalogue_body catalogue product = Ok catalogue' →
  catalogue' !! k = match price_for k product with
                    | Some p => Some p
                    | None => catalogue !! k
                    end.
Proof.
  unfold catalogue_body, price_for, has_key, getitem, setitem.
  destruct (product !! "title") as [t|]; simpl; [|by intros [= <-]].
  destruct (product !! "price") as [p|]; simpl; [|by intros [= <-]].
  destruct (to_key t) as [[k'|]|e]; simpl; [| |done]; intros [= <-]; [|done].
  destruct (decide (k' = k)) as [->|Hne].
  - apply lookup_insert_eq.
  - by apply lookup_insert_ne.
Qed.

Lemma catalogue_loop_lookup (products : list (gmap string json)) (k : pykey) :
  ∀ catalogue catalogue',
  catalogue_loop catalogue products = Ok catalogue' →
  catalogue' !! k = match last (omap (price_for k) products) with
                    | Some p => Some p
                    | None => catalogue !! k
                    end.
Proof.
  induction products as [|product rest IH]; intros catalogue catalogue'.
  - by intros [= <-].
  - change (catalogue_loop catalogue (product :: rest))
      with (catalogue_body catalogue product ≫= λ c, catalogue_loop c rest).
    intros (c & Hbody & Hloop)%bind_Ok.
    rewrite (IH _ _ Hloop), (catalogue_body_lookup _ _ _ k Hbody).
    change (omap (price_for k) (product :: rest))
      with (match price_for k product with
            | Some p => p :: omap (price_for k) rest
            | None => omap (price_for k) rest
            end).
    destruct (price_for k product) as [p|]; [|done].
    rewrite last_cons. by destruct (last (omap (price_for k) rest)).
Qed.

Lemma catalogue_body_returns (catalogue : gmap pykey json) (product : gmap string json) :
  returns (catalogue_body catalogue product) = title_hashable product.
Proof.
  unfold catalogue_body, title_hashable, has_key, getitem, setitem.
  destruct (product !! "title") as [t|]; simpl; [|done].
  destruct (product !! "price") as [p|]; simpl; [|done].
  by destruct t as [| | |[]| | |].
Qed.

Lemma catalogue_loop_returns_iff (products : list (gmap string json)) :
  ∀ catalogue,
  returns (catalogue_loop catalogue products) = forallb title_hashable products.
Proof.
  induction products as [|product rest IH]; intros catalogue; simpl; [done|].
  rewrite returns_bind, <- (catalogue_body_returns catalogue product).
  destruct (catalogue_body catalogue product); simpl; [apply IH|done].
Qed.

(** The catalogue built after another is the one built from nothing, laid
    over it. *)
Lemma catalogue_loop_union (products : list (gmap string json)) :
  ∀ catalogue,
  catalogue_loop catalogue products
  = c ← catalogue_loop ∅ products; Ok (c ∪ catalogue).
Proof.
  induction products as [|product rest IH] using rev_ind; intros catalogue.
  - simpl. by rewrite (left_id_L ∅ (∪)).
  - rewrite !catalogue_loop_app, IH. simpl.
    destruct (catalogue_loop ∅ rest) as [c|e]; simpl; [|done].
    unfold catalogue_body, has_key, getitem, setitem.
    destruct (product !! "title") as [t|]; simpl; [|done].
    destruct (product !! "price") as [p|]; simpl; [|done].
    destruct (to_key t) as [[k|]|e]; simpl; [|done..].
    by rewrite insert_union_l.
Qed.

Lemma string_title_hashable (products : list (gmap string json)) :
  forallb string_title products = true → forallb title_hashable products = true.
Proof.
  rewrite !forallb_forall. intros H product Hin. specialize (H product Hin).
  unfold string_title, title_hashable in *.
  destruct (product !! "title") as [[]|]; try done. by destruct (product !! "price").
Qed.

(** X16. Whenever [build_price_catalogue] returns, what the catalogue
    holds under a key is the price of the last entry of the document that
    has both fields and that title, and nothing when there is no such
    entry. *)
Theorem catalogue_lookup (products : list (gmap string json))
    (catalogue : gmap pykey json) (k : pykey) :
  build_price_catalogue products = Ok catalogue →
  catalogue !! k = last (omap (price_for k) products).
Proof.
  intros H. rewrite (catalogue_loop_lookup _ k _ _ H), lookup_empty.
  by destruct (last _).
Qed.

(** X17. [build_price_catalogue] returns exactly when no entry with both
    fields has a list or an object as its title; otherwise it raises, at
    the first such entry, TypeError "unhashable type: 'list'" (or 'dict'):
    it does not always succeed. *)
Theorem catalogue_built (products : list (gmap string json)) :
  returns (build_price_catalogue products) = forallb title_hashable products
  ∧ ∀ l1 product l2 t,
      products = l1 ++ product :: l2 →
      forallb title_hashable l1 = true →
      product !! "title" = Some t → is_Some (product !! "price") →
      is_container t = true →
      build_price_catalogue products
      = Raise (TypeError ("unhashable type: '" +:+ type_name t +:+ "'")).
Proof.
  split; [apply catalogue_loop_returns_iff|].
  intros l1 product l2 t -> Hl1 Ht [p Hp] Hc. unfold build_price_catalogue.
  rewrite catalogue_loop_app.
  rewrite <- (catalogue_loop_returns_iff l1 ∅) in Hl1.
  apply returns_Ok in Hl1 as [c ->]. simpl.
  rewrite (catalogue_body_insert _ _ t p) by done. by destruct t.
Qed.

(** X18. The catalogue of two documents, one after the other, is the
    catalogue of the second laid over the catalogue of the first (a title
    of both has the price of the second); a document repeated gives the
    catalogue of the document. *)
Theorem catalogue_append (l1 l2 : list (gmap string json)) (c1 c2 : gmap pykey json) :
  build_price_catalogue l1 = Ok c1 →
  build_price_catalogue l2 = Ok c2 →
  build_price_catalogue (l1 ++ l2) = Ok (c2 ∪ c1)
  ∧ build_price_catalogue (l1 ++ l1) = Ok c1.
Proof.
  unfold build_price_catalogue. intros H1 H2.
  rewrite !catalogue_loop_app, H1. simpl.
  rewrite (catalogue_loop_union l2 c1), (catalogue_loop_union l1 c1), H1, H2. simpl.
  by rewrite (idemp_L (∪)).
Qed.

(** X19. The order of the entries matters only for repeated titles: when
    the titles are strings and no two entries with both fields have the
    same one, [build_price_catalogue] returns the same catalogue for every
    rearrangement of the document. *)
Theorem catalogue_order (l1 l2 : list (gmap string json)) :
  l1 ≡ₚ l2 → forallb string_title l1 = true → distinct_titles l1 →
  ∃ catalogue,
    build_price_catalogue l1 = Ok catalogue ∧ build_price_catalogue l2 = Ok catalogue.
Proof.
  intros Hperm Hs Hd. unfold build_price_catalogue.
  assert (returns (catalogue_loop ∅ l1) = true) as [c1 H1]%returns_Ok.
  { rewrite catalogue_loop_returns_iff. by apply string_title_hashable. }
  assert (returns (catalogue_loop ∅ l2) = true) as [c2 H2]%returns_Ok.
  { rewrite catalogue_loop_returns_iff. apply (forallb_perm _ l1); [done|].
    by apply string_title_hashable. }
  exists c1. split; [done|]. rewrite H2. f_equal. apply map_eq. intros k.
  rewrite (catalogue_loop_lookup _ k _ _ H1), (catalogue_loop_lookup _ k _ _ H2).
  pose proof (omap_Permutation (price_for k) _ _ Hperm) as Hk. specialize (Hd k).
  destruct (omap (price_for k) l1) as [|p [|p' ps]]; simpl in Hd; [| |lia].
  - by apply Permutation_nil_l in Hk as <-.
  - by apply Permutation_singleton_l in Hk as <-.
Qed.

(** ** The error lines *)

Lemma append_cons (a : ascii) (s t : string) : String a s +:+ t = String a (s +:+ t).
Proof. reflexivity. Qed.

Lemma append_empty_l (s : string) : EmptyString +:+ s = s.
Proof. reflexivity. Qed.

Lemma pretty_N_go_no_colon (x : N) :
  ∀ s, no_colon s = true → no_colon (pretty_N_go x s) = true.
Proof.
  induction (N.lt_wf_0 x) as [x _ IH]; intros s Hs.
  assert (x = 0 ∨ 0 < x)%N as [->|Hx] by lia.
  - by rewrite pretty_N_go_0.
  - rewrite pretty_N_go_step by done. apply IH; [by apply N.div_lt|].
    simpl. rewrite Hs, andb_true_r. unfold pretty_N_char. by repeat case_match.
Qed.

Lemma pretty_nat_no_colon (n : nat) : no_colon (pretty n) = true.
Proof.
  unfold pretty, pretty_nat, pretty, pretty_N. case_decide; [done|].
  by apply pretty_N_go_no_colon.
Qed.

(** Two texts without a colon that are followed by one. *)
Lemma no_colon_split (s1 : string) :
  ∀ s2 r1 r2,
  no_colon s1 = true → no_colon s2 = true →
  s1 +:+ String ":" r1 = s2 +:+ String ":" r2 →
  s1 = s2 ∧ r1 = r2.
Proof.
  induction s1 as [|a s1 IH]; intros [|b s2] r1 r2 H1 H2;
    rewrite ?append_cons, ?append_empty_l; intros Heq.
  - by injection Heq.
  - injection Heq as <- _. simpl in H2. done.
  - injection Heq as -> _. simpl in H1. done.
  - injection Heq as -> Heq. simpl in H1, H2.
    apply andb_true_iff in H1 as [_ H1]. apply andb_true_iff in H2 as [_ H2].
    by destruct (IH s2 r1 r2 H1 H2 Heq) as [-> ->].
Qed.

(** An error line tells the position of its record and the reason. *)
Lemma sale_error_inj (i j : nat) (r1 r2 : string) :
  sale_error i r1 = sale_error j r2 → i = j ∧ r1 = r2.
Proof.
  unfold sale_error. intros H%(inj (String.append "Sale #")).
  change (pretty i +:+ String ":" (" " +:+ r1) = pretty j +:+ String ":" (" " +:+ r2)) in H.
  apply no_colon_split in H as [Hij Hr]; [|apply pretty_nat_no_colon..].
  split; [by apply (inj pretty)|]. by apply (inj (String.append " ")) in Hr.
Qed.

Section Distinct.
Context (builtin_str : json → string).

Lemma error_lines_index (catalogue : gmap pykey json) (l : list (gmap string json)) :
  ∀ idx e, e ∈ error_lines builtin_str catalogue idx l →
           ∃ i reason, (idx ≤ i < idx + length l)%nat ∧ e = sale_error i reason.
Proof.
  induction l as [|sale rest IH]; intros idx e.
  - by intros ?%elem_of_nil.
  - rewrite error_lines_cons. intros [He|He]%elem_of_app.
    + unfold error_line in He.
      destruct (rejection builtin_str catalogue sale) as [[reason|]|]; simpl in He;
        try by apply elem_of_nil in He.
      apply list_elem_of_singleton in He as ->. exists idx, reason. simpl. split; [lia|done].
    + apply IH in He as (i & reason & Hi & ->). exists i, reason. simpl. split; [lia|done].
Qed.

Lemma error_lines_NoDup (catalogue : gmap pykey json) (l : list (gmap string json)) :
  ∀ idx, NoDup (error_lines builtin_str catalogue idx l).
Proof.
  induction l as [|sale rest IH]; intros idx; [constructor|].
  rewrite error_lines_cons. unfold error_line.
  destruct (rejection builtin_str catalogue sale) as [[reason|]|]; simpl; try apply IH.
  constructor; [|apply IH].
  intros (i & r & Hi & Heq)%error_lines_index.
  apply sale_error_inj in Heq as [-> _]. lia.
Qed.

(** X20. The errors that [compute_sales] returns are pairwise different,
    and each of them tells its record: it is "Sale #idx: reason" for one
    position idx, between 1 and the number of records, and one reason. *)
Theorem errors_distinct (catalogue : gmap pykey json)
    (sales_records : list (gmap string json)) (total : spec_float) (errs : list string) :
  compute_sales builtin_str catalogue sales_records = Ok (total, errs) →
  NoDup errs
  ∧ ∀ e, e ∈ errs →
      ∃ idx reason, (1 ≤ idx ≤ length sales_records)%nat
        ∧ e = "Sale #" +:+ pretty idx +:+ ": " +:+ reason
        ∧ ∀ idx' reason', e = "Sale #" +:+ pretty idx' +:+ ": " +:+ reason' →
                          idx' = idx ∧ reason' = reason.
Proof.
  intros (st & Hloop & <- & <-)%compute_sales_Ok.
  destruct (sales_loop_spec builtin_str _ _ _ _ _ Hloop) as (-> & _). simpl.
  split; [apply error_lines_NoDup|].
  intros e (idx & reason & Hidx & ->)%error_lines_index.
  exists idx, reason. split; [lia|]. split; [done|].
  intros idx' reason' Heq. by apply sale_error_inj in Heq as [-> ->].
Qed.

End Distinct.

(** ** The two renderings, and the whole run *)

Section Report.
Context (builtin_str : json → string) (builtin_format : string → spec_float → string).

(** X21. The console and the file show the same summary: the title, the
    count, the cost and the time that [display_results] prints are,
    character for character, the first six writes of [save_results], after
    one empty line; with no error, the whole console block is the whole
    file between an empty line and a closing rule.  With errors, the
    console has the count of them that the file has under "ERRORS FOUND",
    and the file lists them all, one "  - " line each, in order. *)
Theorem two_renderings (output_file : string) (total_cost elapsed_time : spec_float)
    (sales_count : nat) (errors : list string) :
  console (take 6 (display_results builtin_format total_cost elapsed_time sales_count errors))
    +:+ nl
  = nl +:+ file_content (take 6 (save_results builtin_format output_file total_cost
                                   elapsed_time sales_count errors))
  ∧ console (display_results builtin_format total_cost elapsed_time sales_count [])
    = nl +:+ file_content (save_results builtin_format output_file total_cost
                             elapsed_time sales_count [])
      +:+ rule +:+ nl
  ∧ (display_results builtin_format total_cost elapsed_time sales_count errors !! 6%nat
     = Some (nl +:+ "No errors encountered during processing.")
     ∧ errors = []
     ∧ drop 6 (save_results builtin_format output_file total_cost elapsed_time
                 sales_count errors)
       = ["No errors encountered during processing." +:+ nl]
     ∨ display_results builtin_format total_cost elapsed_time sales_count errors !! 6%nat
       = Some (nl +:+ "Total Errors Found: " +:+ pretty (length errors))
       ∧ errors ≠ []
       ∧ drop 6 (save_results builtin_format output_file total_cost elapsed_time
                   sales_count errors)
         = [rule +:+ nl; "ERRORS FOUND: " +:+ pretty (length errors) +:+ nl; rule +:+ nl]
           ++ map (λ error, "  - " +:+ error +:+ nl) errors).
Proof.
  split; [|split].
  - unfold display_results, save_results, console, file_content.
    cbn [map foldr take drop app].
    by rewrite ?append_assoc, ?append_empty_r, ?append_empty_l.
  - unfold display_results, save_results, console, file_content.
    cbn [map foldr take drop app].
    by rewrite ?append_assoc, ?append_empty_r, ?append_empty_l.
  - destruct errors as [|error rest]; [left|right]; done.
Qed.


End Report.

(** ** Further examples *)

Lemma quantity_not_a_number_witness :
  fields_present (sale_of (JStr "A") (JStr "many")) = true
  ∧ sale_of (JStr "A") (JStr "many") !! "Quantity" = Some (JStr "many")
  ∧ isinstance_int_float (JStr "many") = false
  ∧ validate_sale_item str_unused (sale_of (JStr "A") (JStr "many")) 1
    = Ok (false, "Quantity must be a number, got <class 'str'>").
Proof.
  do 3 (split; [vm_compute; reflexivity|]).
  refine (quantity_not_a_number str_unused _ 1 (JStr "many") _ _ _); vm_compute; reflexivity.
Defined.


Lemma noted_sale_reading :
  Forall2 same_reading [sale_of (JStr "A") (JInt 3)] [noted_sale].
Proof.
  constructor; [|constructor]. split; [|split]; [|vm_compute; reflexivity..].
  repeat (constructor; [vm_compute; reflexivity|]). constructor.
Qed.

Lemma other_fields_ignored_witness :
  Forall2 same_reading [sale_of (JStr "A") (JInt 3)] [noted_sale]
  ∧ compute_sales str_unused (catalogue_A (JInt 10)) [sale_of (JStr "A") (JInt 3)]
    = compute_sales str_unused (catalogue_A (JInt 10)) [noted_sale].
Proof.
  split; [exact noted_sale_reading|].
  exact (other_fields_ignored str_unused _ _ _ noted_sale_reading).
Defined.

Lemma one_more_product :
  Forall (same_price (catalogue_A (JInt 10))
            (<[KStr "B" := JInt 7]> (catalogue_A (JInt 10))))
    [sale_of (JStr "A") (JInt 3)].
Proof.
  constructor; [|constructor]. intros p k Hp Hk.
  vm_compute in Hp. injection Hp as <-. vm_compute in Hk. injection Hk as <-.
  vm_compute. reflexivity.
Qed.

Lemma other_products_ignored_witness :
  Forall (same_price (catalogue_A (JInt 10))
            (<[KStr "B" := JInt 7]> (catalogue_A (JInt 10))))
    [sale_of (JStr "A") (JInt 3)]
  ∧ compute_sales str_unused (catalogue_A (JInt 10)) [sale_of (JStr "A") (JInt 3)]
    = compute_sales str_unused (<[KStr "B" := JInt 7]> (catalogue_A (JInt 10)))
        [sale_of (JStr "A") (JInt 3)].
Proof.
  split; [exact one_more_product|].
  exact (other_products_ignored str_unused _ _ _ one_more_product).
Defined.


Lemma unhashable_product_witness :
  fields_present (sale_of (JList []) (JInt 1)) = true
  ∧ sale_of (JList []) (JInt 1) !! "Quantity" = Some (JInt 1)
  ∧ quantity_valid (JInt 1) = true
  ∧ sale_of (JList []) (JInt 1) !! "Product" = Some (JList [])
  ∧ is_container (JList []) = true
  ∧ forallb (record_safe (catalogue_A (JInt 10))) [sale_of (JStr "A") (JInt 3)] = true
  ∧ compute_sales str_unused (catalogue_A (JInt 10))
      ([sale_of (JStr "A") (JInt 3)] ++ sale_of (JList []) (JInt 1) :: [])
    = Raise (TypeError "unhashable type: 'list'").
Proof.
  do 6 (split; [vm_compute; reflexivity|]).
  refine (unhashable_product str_unused (catalogue_A (JInt 10)) _ (JInt 1) (JList [])
            _ _ _ _ _ [sale_of (JStr "A") (JInt 3)] [] _); vm_compute; reflexivity.
Defined.

Lemma integer_too_large_witness :
  fields_present (sale_of (JStr "A") (JFloat thirty)) = true
  ∧ sale_of (JStr "A") (JFloat thirty) !! "Quantity" = Some (JFloat thirty)
  ∧ quantity_valid (JFloat thirty) = true
  ∧ sale_of (JStr "A") (JFloat thirty) !! "Product" = Some (JStr "A")
  ∧ to_key (JStr "A") = Ok (Some (KStr "A"))
  ∧ catalogue_A (JInt (2 ^ 1024)) !! KStr "A" = Some (JInt (2 ^ 1024))
  ∧ isinstance_int_float (JInt (2 ^ 1024)) = true
  ∧ costable (JInt (2 ^ 1024)) (JFloat thirty) = false
  ∧ forallb (record_safe (catalogue_A (JInt (2 ^ 1024)))) [] = true
  ∧ compute_sales str_unused (catalogue_A (JInt (2 ^ 1024)))
      ([] ++ sale_of (JStr "A") (JFloat thirty) :: [])
    = Raise (OverflowError "int too large to convert to float").
Proof.
  do 9 (split; [vm_compute; reflexivity|]).
  refine (integer_too_large str_unused (catalogue_A (JInt (2 ^ 1024))) _ (JFloat thirty)
            (JStr "A") (JInt (2 ^ 1024)) (KStr "A") _ _ _ _ _ _ _ _ [] [] _);
    vm_compute; reflexivity.
Defined.

Lemma string_price_run :
  compute_sales str_unused (catalogue_A (JStr "ten"))
    [sale_of (JStr "Z") (JInt 1); sale_of (JStr "A") (JInt 2)]
  = Raise (TypeError "unsupported operand type(s) for +=: 'float' and 'str'").
Proof. vm_compute. reflexivity. Qed.


Lemma three_sales_loop :
  sales_loop str_unused (catalogue_A (JInt 10)) start 1 three_sales
  = Ok {| total_cost := thirty; errors := three_errors;
          printed := [ "WARNING: Sale #2: Missing required field 'Quantity'";
                       "WARNING: Sale #3: Product 'Z' not found in catalogue" ] |}.
Proof. vm_compute. reflexivity. Qed.

Lemma warnings_printed_witness :
  sales_loop str_unused (catalogue_A (JInt 10)) start 1 three_sales
  = Ok {| total_cost := thirty; errors := three_errors;
          printed := [ "WARNING: Sale #2: Missing required field 'Quantity'";
                       "WARNING: Sale #3: Product 'Z' not found in catalogue" ] |}
  ∧ compute_sales str_unused (catalogue_A (JInt 10)) three_sales
    = Ok (thirty, three_errors)
  ∧ [ "WARNING: Sale #2: Missing required field 'Quantity'";
      "WARNING: Sale #3: Product 'Z' not found in catalogue" ]
    = map (λ error, "WARNING: " +:+ error) three_errors.
Proof.
  split; [exact three_sales_loop|].
  exact (warnings_printed str_unused _ _ _ three_sales_loop).
Defined.

Lemma single_pass_witness :
  compute_sales str_unused (catalogue_A (JInt 10))
    ([sale_of (JStr "A") (JInt 3)]
     ++ [delete "Quantity" (sale_of (JStr "A") (JInt 3)); sale_of (JStr "Z") (JInt 1)])
  = Ok (thirty, three_errors)
  ∧ ∃ total1 errs1 costs,
      compute_sales str_unused (catalogue_A (JInt 10)) [sale_of (JStr "A") (JInt 3)]
      = Ok (total1, errs1)
      ∧ three_errors
        = errs1 ++ error_lines str_unused (catalogue_A (JInt 10))
                     (1 + length [sale_of (JStr "A") (JInt 3)])
                     [delete "Quantity" (sale_of (JStr "A") (JInt 3));
                      sale_of (JStr "Z") (JInt 1)]
      ∧ Forall2 (λ sale c, line_cost (catalogue_A (JInt 10)) sale = Ok c)
          (List.filter (passes_checks (catalogue_A (JInt 10)))
             [delete "Quantity" (sale_of (JStr "A") (JInt 3));
              sale_of (JStr "Z") (JInt 1)]) costs
      ∧ thirty = foldl fadd total1 costs.
Proof.
  split; [exact three_sales_run|].
  exact (single_pass str_unused _ [sale_of (JStr "A") (JInt 3)] _ _ _ three_sales_run).
Defined.

Lemma string_price_raises :
  compute_sales str_unused (catalogue_A (JStr "ten")) [sale_of (JStr "A") (JInt 2)]
  = Raise (TypeError "unsupported operand type(s) for +=: 'float' and 'str'").
Proof. vm_compute. reflexivity. Qed.

Lemma fail_fast_witness :
  compute_sales str_unused (catalogue_A (JStr "ten")) [sale_of (JStr "A") (JInt 2)]
  = Raise (TypeError "unsupported operand type(s) for +=: 'float' and 'str'")
  ∧ compute_sales str_unused (catalogue_A (JStr "ten"))
      ([sale_of (JStr "A") (JInt 2)] ++ [sale_of (JStr "Z") (JInt 1)])
    = Raise (TypeError "unsupported operand type(s) for +=: 'float' and 'str'").
Proof.
  split; [exact string_price_raises|].
  exact (fail_fast str_unused _ _ _ _ string_price_raises).
Defined.

Lemma nan_run :
  compute_sales str_unused (catalogue_A (JInt 10))
    ([sale_of (JStr "A") (JInt 3)] ++ sale_of (JStr "A") (JFloat S754_nan)
     :: [sale_of (JStr "A") (JInt 3)])
  = Ok (S754_nan, []).
Proof. vm_compute. reflexivity. Qed.

Lemma nan_quantity_witness :
  fields_present (sale_of (JStr "A") (JFloat S754_nan)) = true
  ∧ sale_of (JStr "A") (JFloat S754_nan) !! "Quantity" = Some (JFloat S754_nan)
  ∧ sale_of (JStr "A") (JFloat S754_nan) !! "Product" = Some (JStr "A")
  ∧ to_key (JStr "A") = Ok (Some (KStr "A"))
  ∧ catalogue_A (JInt 10) !! KStr "A" = Some (JInt 10)
  ∧ compute_sales str_unused (catalogue_A (JInt 10))
      ([sale_of (JStr "A") (JInt 3)] ++ sale_of (JStr "A") (JFloat S754_nan)
       :: [sale_of (JStr "A") (JInt 3)])
    = Ok (S754_nan, [])
  ∧ validate_sale_item str_unused (sale_of (JStr "A") (JFloat S754_nan))
      (S (length [sale_of (JStr "A") (JInt 3)])) = Ok (true, EmptyString).
Proof.
  do 5 (split; [vm_compute; reflexivity|]). split; [exact nan_run|].
  refine (proj1 (nan_quantity str_unused (catalogue_A (JInt 10))
                   [sale_of (JStr "A") (JInt 3)] _ [sale_of (JStr "A") (JInt 3)]
                   (JStr "A") (KStr "A") (JInt 10) _ _ _ _ _ _ _ nan_run));
    vm_compute; reflexivity.
Defined.

Lemma three_sales_integer : Forall (integer_cost (catalogue_A (JInt 10))) three_sales.
Proof.
  repeat constructor; intros Hp.
  - exists 30. split; [vm_compute; reflexivity|lia].
  - vm_compute in Hp. discriminate.
  - vm_compute in Hp. discriminate.
Qed.

Lemma three_sales_below : exact_total (catalogue_A (JInt 10)) three_sales < 2 ^ 53.
Proof. vm_compute. reflexivity. Qed.

Lemma integer_total_exact_witness :
  Forall (integer_cost (catalogue_A (JInt 10))) three_sales
  ∧ exact_total (catalogue_A (JInt 10)) three_sales < 2 ^ 53
  ∧ compute_sales str_unused (catalogue_A (JInt 10)) three_sales = Ok (thirty, three_errors)
  ∧ thirty = float_of_Z (exact_total (catalogue_A (JInt 10)) three_sales).
Proof.
  split; [exact three_sales_integer|]. split; [exact three_sales_below|].
  split; [exact three_sales_run|].
  exact (proj1 (integer_total_exact str_unused _ _ _ _ three_sales_integer three_sales_below
                  three_sales_run)).
Defined.

Lemma integer_total_order_witness :
  three_sales ≡ₚ rev three_sales
  ∧ Forall (integer_cost (catalogue_A (JInt 10))) three_sales
  ∧ exact_total (catalogue_A (JInt 10)) three_sales < 2 ^ 53
  ∧ compute_sales str_unused (catalogue_A (JInt 10)) three_sales = Ok (thirty, three_errors)
  ∧ ∃ errs2,
      compute_sales str_unused (catalogue_A (JInt 10)) (rev three_sales)
      = Ok (thirty, errs2).
Proof.
  split; [apply Permutation_rev|].
  split; [exact three_sales_integer|]. split; [exact three_sales_below|].
  split; [exact three_sales_run|].
  exact (integer_total_order str_unused _ _ _ _ _ (Permutation_rev three_sales)
           three_sales_integer three_sales_below three_sales_run).
Defined.

Lemma two_prices_built : build_price_catalogue two_prices = Ok (catalogue_A (JInt 20)).
Proof. vm_compute. reflexivity. Qed.

Lemma catalogue_lookup_witness :
  build_price_catalogue two_prices = Ok (catalogue_A (JInt 20))
  ∧ catalogue_A (JInt 20) !! KStr "A" = last (omap (price_for (KStr "A")) two_prices)
  ∧ catalogue_A (JInt 20) !! KStr "B" = last (omap (price_for (KStr "B")) two_prices).
Proof.
  split; [exact two_prices_built|].
  split; exact (catalogue_lookup _ _ _ two_prices_built).
Defined.

Lemma catalogue_built_witness :
  returns (build_price_catalogue
             [product_of (JStr "A") (JInt 10); product_of (JList []) (JInt 5)])
  = forallb title_hashable [product_of (JStr "A") (JInt 10); product_of (JList []) (JInt 5)]
  ∧ build_price_catalogue [product_of (JStr "A") (JInt 10); product_of (JList []) (JInt 5)]
    = Raise (TypeError "unhashable type: 'list'").
Proof.
  split.
  - exact (proj1 (catalogue_built _)).
  - refine (proj2 (catalogue_built _) [product_of (JStr "A") (JInt 10)]
              (product_of (JList []) (JInt 5)) [] (JList []) eq_refl _ _ _ _);
      try (vm_compute; reflexivity).
    exists (JInt 5). vm_compute. reflexivity.
Defined.

Lemma catalogue_append_witness :
  build_price_catalogue [product_of (JStr "A") (JInt 10)] = Ok (catalogue_A (JInt 10))
  ∧ build_price_catalogue [product_of (JStr "A") (JInt 20)] = Ok (catalogue_A (JInt 20))
  ∧ build_price_catalogue
      ([product_of (JStr "A") (JInt 10)] ++ [product_of (JStr "A") (JInt 20)])
    = Ok (catalogue_A (JInt 20) ∪ catalogue_A (JInt 10))
  ∧ build_price_catalogue
      ([product_of (JStr "A") (JInt 10)] ++ [product_of (JStr "A") (JInt 10)])
    = Ok (catalogue_A (JInt 10)).
Proof.
  assert (build_price_catalogue [product_of (JStr "A") (JInt 10)]
          = Ok (catalogue_A (JInt 10))) as H1 by (vm_compute; reflexivity).
  assert (build_price_catalogue [product_of (JStr "A") (JInt 20)]
          = Ok (catalogue_A (JInt 20))) as H2 by (vm_compute; reflexivity).
  split; [exact H1|]. split; [exact H2|].
  exact (catalogue_append _ _ _ _ H1 H2).
Defined.

Lemma errors_distinct_witness :
  compute_sales str_unused (catalogue_A (JInt 10)) three_sales = Ok (thirty, three_errors)
  ∧ NoDup three_errors.
Proof.
  split; [exact three_sales_run|].
  exact (proj1 (errors_distinct str_unused _ _ _ _ three_sales_run)).
Defined.

Lemma two_titles_distinct : distinct_titles two_titles.
Proof.
  intros k. unfold two_titles, price_for, product_of.
  destruct (decide (k = KStr "A")) as [->|Ha]; [vm_compute; lia|].
  destruct (decide (k = KStr "B")) as [->|Hb]; [vm_compute; lia|].
  assert (price_for k (product_of (JStr "A") (JInt 10)) = None) as HA.
  { unfold price_for, product_of. rewrite lookup_insert_eq.
    rewrite lookup_insert_ne, lookup_insert_eq by done. simpl.
    by destruct (decide (KStr "A" = k)). }
  assert (price_for k (product_of (JStr "B") (JInt 5)) = None) as HB.
  { unfold price_for, product_of. rewrite lookup_insert_eq.
    rewrite lookup_insert_ne, lookup_insert_eq by done. simpl.
    by destruct (decide (KStr "B" = k)). }
  change (length (omap (price_for k) [product_of (JStr "A") (JInt 10);
                                      product_of (JStr "B") (JInt 5)]) ≤ 1)%nat.
  cbn [omap list_omap]. rewrite HA, HB. simpl. lia.
Qed.

Lemma catalogue_order_witness :
  two_titles ≡ₚ rev two_titles
  ∧ forallb string_title two_titles = true
  ∧ distinct_titles two_titles
  ∧ ∃ catalogue,
      build_price_catalogue two_titles = Ok catalogue
      ∧ build_price_catalogue (rev two_titles) = Ok catalogue.
Proof.
  split; [apply Permutation_rev|]. split; [vm_compute; reflexivity|].
  split; [exact two_titles_distinct|].
  refine (catalogue_order _ _ (Permutation_rev two_titles) _ two_titles_distinct).
  vm_compute. reflexivity.
Defined.

